(** * kodi/AddonBase.h: the add-on side of Kodi's binary add-on interface

    A shallow embedding of [xbmc/addons/kodi-addon-dev-kit/include/kodi/AddonBase.h]:
    the typed settings view [CSettingValue], the structure wrapper
    [CStructHdl], the instance dispatchers of [CAddonBase], the path and
    settings accessors and [TranslateAddonStatus].

    Conventions of the embedding.
    - A pointer ([KODI_HANDLE], [C_STRUCT*], [const void*]) is an address
      in [N]; [0] is [nullptr].  Objects live in finite maps from addresses
      ([gmap N _]); an address without an entry is not a live object, and
      reading through it is undefined behaviour.
    - [int] values are in [Z]; none of the functions here does arithmetic
      on them, they are only compared and passed on.
    - C++ code that can throw or run into undefined behaviour returns an
      [Outcome]; virtual member functions that add-on authors override are
      fields of a [VTable]. *)

From Stdlib Require Import Ascii.
From stdpp Require Import base option strings list gmap.

Open Scope Z_scope.

(** ** Status codes *)

(** [ADDON_STATUS] is a C enum declared in [c-api/addon_base.h];
    [AddonBase.h] uses its seven enumerators by name only.  A value of the
    enum type is an integer; the numeric values of the enumerators are
    parameters, pairwise distinct as the case labels of one [switch] have
    to be. *)
Definition ADDON_STATUS := Z.

Class AddonStatusCodes := {
  ADDON_STATUS_OK : ADDON_STATUS;
  ADDON_STATUS_LOST_CONNECTION : ADDON_STATUS;
  ADDON_STATUS_NEED_RESTART : ADDON_STATUS;
  ADDON_STATUS_NEED_SETTINGS : ADDON_STATUS;
  ADDON_STATUS_UNKNOWN : ADDON_STATUS;
  ADDON_STATUS_PERMANENT_FAILURE : ADDON_STATUS;
  ADDON_STATUS_NOT_IMPLEMENTED : ADDON_STATUS;
  status_codes_distinct :
    NoDup [ADDON_STATUS_OK; ADDON_STATUS_LOST_CONNECTION;
           ADDON_STATUS_NEED_RESTART; ADDON_STATUS_NEED_SETTINGS;
           ADDON_STATUS_UNKNOWN; ADDON_STATUS_PERMANENT_FAILURE;
           ADDON_STATUS_NOT_IMPLEMENTED]
}.

(** The enumerators numbered in declaration order, as a C compiler numbers
    an enum without initialisers. *)
#[refine] Instance declaration_order_codes : AddonStatusCodes := {|
  ADDON_STATUS_OK := 0;
  ADDON_STATUS_LOST_CONNECTION := 1;
  ADDON_STATUS_NEED_RESTART := 2;
  ADDON_STATUS_NEED_SETTINGS := 3;
  ADDON_STATUS_UNKNOWN := 4;
  ADDON_STATUS_PERMANENT_FAILURE := 5;
  ADDON_STATUS_NOT_IMPLEMENTED := 6 |}.
Proof. by apply (bool_decide_unpack _). Defined.

Section status.
Context `{codes : AddonStatusCodes}.

Definition defined_status_codes : list ADDON_STATUS :=
  [ADDON_STATUS_OK; ADDON_STATUS_LOST_CONNECTION; ADDON_STATUS_NEED_RESTART;
   ADDON_STATUS_NEED_SETTINGS; ADDON_STATUS_UNKNOWN;
   ADDON_STATUS_PERMANENT_FAILURE; ADDON_STATUS_NOT_IMPLEMENTED].

(** [TranslateAddonStatus] (l. 652-674): a [switch] over the seven
    enumerators with a [default] that falls through to ["Unknown"]. *)
Definition TranslateAddonStatus (status : ADDON_STATUS) : string :=
  if status =? ADDON_STATUS_OK then "OK"
  else if status =? ADDON_STATUS_LOST_CONNECTION then "Lost Connection"
  else if status =? ADDON_STATUS_NEED_RESTART then "Need Restart"
  else if status =? ADDON_STATUS_NEED_SETTINGS then "Need Settings"
  else if status =? ADDON_STATUS_UNKNOWN then "Unknown error"
  else if status =? ADDON_STATUS_PERMANENT_FAILURE then "Permanent failure"
  else if status =? ADDON_STATUS_NOT_IMPLEMENTED then "Not implemented"
  else "Unknown".

End status.

(** ** Handles, exceptions and outcomes *)

(** [KODI_HANDLE] is [void*]. *)
Abbreviation KODI_HANDLE := N.
Definition nullptr : N := 0%N.

(** What a C++ call can throw here: the [std::logic_error] of the
    dispatchers, or whatever an overridden hook throws. *)
Inductive exception :=
| logic_error (what : string)
| addon_exception (what : string).

(** The result of running C++ code on a state [S]: it returns a value, it
    leaves by an exception, or it runs into undefined behaviour (a virtual
    call or a member access through a pointer to no live object).  The
    state is the one reached at that point. *)
Inductive Outcome (S A : Type) :=
| Returned (a : A) (s : S)
| Thrown (e : exception) (s : S)
| Undefined (s : S).
Arguments Returned {S A} a s.
Arguments Thrown {S A} e s.
Arguments Undefined {S A} s.

Definition outcome_state {S A} (o : Outcome S A) : S :=
  match o with Returned _ s | Thrown _ s | Undefined s => s end.

(** ** The add-on's state *)

(** The data members of [IAddonInstance] (l. 82-84). *)
Record IAddonInstance := {
  m_type : Z;
  m_kodiVersion : string;
  m_id : string
}.

(** The fields of [AddonGlobalInterface] that [AddonBase.h] reads; the
    struct itself is declared in [c-api/addon_base.h]. *)
Record AddonGlobalInterface := {
  libBasePath : string;
  addonBase : KODI_HANDLE;
  globalSingleInstance : KODI_HANDLE;
  firstKodiInstance : KODI_HANDLE
}.

(** [CAddonBase::m_interface] and the instance objects alive in the
    add-on.  [m_interface] is set by [ADDON_Create] before any dispatcher
    can run, so it is always present here; [addonBase] is non-null exactly
    while the base object lives ([ADDONBASE_Destroy] clears it). *)
Record AddonState := {
  m_interface : AddonGlobalInterface;
  instances : gmap N IAddonInstance
}.

Definition set_instances (s : AddonState) (h : gmap N IAddonInstance) : AddonState :=
  {| m_interface := m_interface s; instances := h |}.

Definition set_m_id (obj : IAddonInstance) (id : string) : IAddonInstance :=
  {| m_type := m_type obj; m_kodiVersion := m_kodiVersion obj; m_id := id |}.

(** Calls of virtual member functions made by the dispatchers, in the
    order they are made.  The log is instrumentation: the hooks neither
    see nor change it. *)
Inductive Event :=
| call_IAddonInstance_CreateInstance
    (this : KODI_HANDLE) (instanceType : Z) (instanceID : string)
    (instance : KODI_HANDLE) (version : string)
| call_CAddonBase_CreateInstance
    (instanceType : Z) (instanceID : string)
    (instance : KODI_HANDLE) (version : string)
| call_CAddonBase_DestroyInstance
    (instanceType : Z) (instanceID : string) (addonInstance : KODI_HANDLE).

Record World := {
  state : AddonState;
  calls : list Event
}.

Definition set_state (w : World) (s : AddonState) : World :=
  {| state := s; calls := calls w |}.

(** ** Virtual member functions *)

(** A [CreateInstance] hook: its arguments, the content of the
    [KODI_HANDLE& addonInstance] it may overwrite, and the state; it yields
    a status and the new content of [addonInstance]. *)
Definition CreateInstanceHook : Type :=
  Z → string → KODI_HANDLE → string → KODI_HANDLE →
  AddonState → Outcome AddonState (ADDON_STATUS * KODI_HANDLE).

(** What the add-on's classes provide for the virtual member functions:
    [IAddonInstance::CreateInstance] of the object at [this],
    [CAddonBase::CreateInstance] and [CAddonBase::DestroyInstance] of the
    base object, and the destructor of the instance at [this]. *)
Record VTable := {
  instance_CreateInstance : KODI_HANDLE → CreateInstanceHook;
  base_CreateInstance : CreateInstanceHook;
  base_DestroyInstance :
    Z → string → KODI_HANDLE → AddonState → Outcome AddonState ();
  instance_destructor : KODI_HANDLE → AddonState → AddonState
}.

(** ** The dispatch monad *)

Definition M (A : Type) : Type := World → Outcome World A.

Instance M_ret : MRet M := λ A a w, Returned a w.

Instance M_bind : MBind M := λ A B f m w,
  match m w with
  | Returned a w' => f a w'
  | Thrown e w' => Thrown e w'
  | Undefined w' => Undefined w'
  end.

Definition throw {A} (e : exception) : M A := λ w, Thrown e w.

Definition get_interface : M AddonGlobalInterface :=
  λ w, Returned (m_interface (state w)) w.

(** [static_cast<IAddonInstance*>(h)->...]: access to the members of the
    instance at [h]. *)
Definition instance_at (h : KODI_HANDLE) : M IAddonInstance := λ w,
  if bool_decide (h = nullptr) then Undefined w
  else match instances (state w) !! h with
       | Some obj => Returned obj w
       | None => Undefined w
       end.

Definition store_instance (h : KODI_HANDLE) (obj : IAddonInstance) : M () := λ w,
  Returned () (set_state w (set_instances (state w) (<[h := obj]> (instances (state w))))).

(** The world after [static_cast<IAddonInstance*>(h)->m_id = id], [obj]
    being the instance at [h]. *)
Definition stamp_id (w : World) (h : KODI_HANDLE) (obj : IAddonInstance) (id : string) : World :=
  set_state w (set_instances (state w) (<[h := set_m_id obj id]> (instances (state w)))).

(** The state after [delete] of the instance at [h] in state [s]: its
    destructor has run and the object is gone. *)
Definition deleted (vt : VTable) (h : KODI_HANDLE) (s : AddonState) : AddonState :=
  set_instances (instance_destructor vt h s)
                (delete h (instances (instance_destructor vt h s))).

(** A call of a hook: logged, then run on the add-on's state. *)
Definition call_hook {A} (ev : Event) (hook : AddonState → Outcome AddonState A) : M A := λ w,
  let w1 := {| state := state w; calls := calls w ++ [ev] |} in
  match hook (state w1) with
  | Returned a s => Returned a (set_state w1 s)
  | Thrown e s => Thrown e (set_state w1 s)
  | Undefined s => Undefined (set_state w1 s)
  end.

(** A virtual call through an [IAddonInstance*] needs a live object. *)
Definition virtual_IAddonInstance {A} (this : KODI_HANDLE) (ev : Event)
    (hook : AddonState → Outcome AddonState A) : M A :=
  _ ← instance_at this; call_hook ev hook.

(** A virtual call through the [CAddonBase*] needs the base object. *)
Definition virtual_CAddonBase {A} (base : KODI_HANDLE) (ev : Event)
    (hook : AddonState → Outcome AddonState A) : M A := λ w,
  if bool_decide (base = nullptr) then Undefined w else call_hook ev hook w.

(** [delete static_cast<IAddonInstance*>(h)]: nothing for a null pointer,
    undefined for an address that holds no instance. *)
Definition delete_IAddonInstance (vt : VTable) (h : KODI_HANDLE) : M () := λ w,
  if bool_decide (h = nullptr) then Returned () w
  else match instances (state w) !! h with
       | None => Undefined w
       | Some _ => Returned () (set_state w (deleted vt h (state w)))
       end.

(** ** The dispatchers of [CAddonBase] *)

Section dispatch.
Context `{codes : AddonStatusCodes}.

(** [IAddonInstance::CreateInstance] as the class defines it (l. 73-80). *)
Definition IAddonInstance_CreateInstance : CreateInstanceHook :=
  λ instanceType instanceID instance version addonInstance s,
    Returned (ADDON_STATUS_NOT_IMPLEMENTED, addonInstance) s.

(** [CAddonBase::CreateInstance] as the class defines it (l. 276-299).
    The three conditions are joined by [&&]: the type of the single
    instance is read only after the first two hold. *)
Definition CAddonBase_CreateInstance : CreateInstanceHook :=
  λ instanceType instanceID instance version addonInstance s,
    let single := globalSingleInstance (m_interface s) in
    if bool_decide (firstKodiInstance (m_interface s) = instance) then
      if bool_decide (single ≠ nullptr) then
        match instances s !! single with
        | None => Undefined s
        | Some obj =>
            if bool_decide (m_type obj = instanceType)
            then Returned (ADDON_STATUS_OK, single) s
            else Returned (ADDON_STATUS_UNKNOWN, addonInstance) s
        end
      else Returned (ADDON_STATUS_UNKNOWN, addonInstance) s
    else Returned (ADDON_STATUS_UNKNOWN, addonInstance) s.

(** [CAddonBase::DestroyInstance] as the class defines it (l. 316-320). *)
Definition CAddonBase_DestroyInstance
    (instanceType : Z) (instanceID : string) (addonInstance : KODI_HANDLE)
    (s : AddonState) : Outcome AddonState () :=
  Returned () s.

(** An add-on that overrides nothing. *)
Definition default_vtable : VTable := {|
  instance_CreateInstance := λ _, IAddonInstance_CreateInstance;
  base_CreateInstance := CAddonBase_CreateInstance;
  base_DestroyInstance := CAddonBase_DestroyInstance;
  instance_destructor := λ _ s, s
|}.

(** Whether a hook returned, and returned this status. *)
Definition returned_status {A} (o : Outcome AddonState (ADDON_STATUS * A))
    (status : ADDON_STATUS) : bool :=
  match o with
  | Returned (st, _) _ => st =? status
  | _ => false
  end.

Definition empty_instance_error : exception :=
  logic_error "kodi::addon::CAddonBase CreateInstance returns a empty instance pointer!".

Definition created_type_error : exception :=
  logic_error "kodi::addon::CAddonBase CreateInstance with difference on given and returned instance type!".

Definition destroyed_type_error : exception :=
  logic_error "kodi::addon::CAddonBase DestroyInstance called with difference on given and present instance type!".

Context (vt : VTable).

(** [ADDONBASE_CreateInstance] (l. 349-376).  [addonInstance] is what the
    host's slot [*addonInstance] holds on entry; the result carries what
    it holds on return. *)
Definition ADDONBASE_CreateInstance
    (instanceType : Z) (instanceID : string) (instance : KODI_HANDLE)
    (version : string) (addonInstance : KODI_HANDLE) (parent : KODI_HANDLE)
    : M (ADDON_STATUS * KODI_HANDLE) :=
  iface ← get_interface;
  let base := addonBase iface in
  let status := ADDON_STATUS_NOT_IMPLEMENTED in
  '(status, addonInstance) ←
    (if bool_decide (parent ≠ nullptr) then
       virtual_IAddonInstance parent
         (call_IAddonInstance_CreateInstance parent instanceType instanceID instance version)
         (instance_CreateInstance vt parent instanceType instanceID instance version addonInstance)
     else mret (status, addonInstance));
  '(status, addonInstance) ←
    (if status =? ADDON_STATUS_NOT_IMPLEMENTED then
       virtual_CAddonBase base
         (call_CAddonBase_CreateInstance instanceType instanceID instance version)
         (base_CreateInstance vt instanceType instanceID instance version addonInstance)
     else mret (status, addonInstance));
  if bool_decide (addonInstance = nullptr) then throw empty_instance_error
  else
    created ← instance_at addonInstance;
    if bool_decide (m_type created ≠ instanceType) then throw created_type_error
    else
      _ ← store_instance addonInstance (set_m_id created instanceID);
      mret (status, addonInstance).

(** The first half of [ADDONBASE_CreateInstance] on its own (l. 356-363):
    the parent's hook, then the base object's hook if the status is still
    [ADDON_STATUS_NOT_IMPLEMENTED]. *)
Definition CreateInstance_hooks
    (instanceType : Z) (instanceID : string) (instance : KODI_HANDLE)
    (version : string) (addonInstance : KODI_HANDLE) (parent : KODI_HANDLE)
    : M (ADDON_STATUS * KODI_HANDLE) :=
  iface ← get_interface;
  '(status, addonInstance) ←
    (if bool_decide (parent ≠ nullptr) then
       virtual_IAddonInstance parent
         (call_IAddonInstance_CreateInstance parent instanceType instanceID instance version)
         (instance_CreateInstance vt parent instanceType instanceID instance version addonInstance)
     else mret (ADDON_STATUS_NOT_IMPLEMENTED, addonInstance));
  if status =? ADDON_STATUS_NOT_IMPLEMENTED then
    virtual_CAddonBase (addonBase iface)
      (call_CAddonBase_CreateInstance instanceType instanceID instance version)
      (base_CreateInstance vt instanceType instanceID instance version addonInstance)
  else mret (status, addonInstance).

(** [ADDONBASE_DestroyInstance] (l. 378-393).  The arguments of the hook,
    [m_id] among them, are read before the hook runs. *)
Definition ADDONBASE_DestroyInstance (instanceType : Z) (instance : KODI_HANDLE) : M () :=
  iface ← get_interface;
  let base := addonBase iface in
  if bool_decide (globalSingleInstance iface = nullptr) && bool_decide (instance ≠ base) then
    obj ← instance_at instance;
    if bool_decide (m_type obj = instanceType) then
      _ ← virtual_CAddonBase base
            (call_CAddonBase_DestroyInstance instanceType (m_id obj) instance)
            (base_DestroyInstance vt instanceType (m_id obj) instance);
      delete_IAddonInstance vt instance
    else throw destroyed_type_error
  else mret ().

End dispatch.

(** ** The host's function table *)

(** A C [float] is carried as its 32 bits; the accessors only pass it on. *)
Definition cfloat := N.
Definition float_zero : cfloat := 0%N.

(** The entries of [AddonToKodiFuncTable_Addon] that the accessors call,
    closed over the host's [kodiBase].  A returned [char*] is [None] when
    it is null.  An entry that fills an output parameter receives what
    the parameter holds and yields the flag together with what the
    parameter holds afterwards. *)
Record AddonToKodiFuncTable_Addon := {
  get_addon_path : option string;
  get_base_user_path : option string;
  get_setting_string : string → bool * option string;
  get_setting_int : string → Z → bool * Z;
  get_setting_bool : string → bool → bool * bool;
  get_setting_float : string → cfloat → bool * cfloat
}.

Section accessors.
Context (TARGET_WINDOWS : bool) (toKodi : AddonToKodiFuncTable_Addon).

(** The separator the preprocessor selects (l. 433-437). *)
Definition path_separator : string := if TARGET_WINDOWS then "\" else "/".

(** The part shared word for word by [GetAddonPath] (l. 430-440) and
    [GetBaseUserPath] (l. 454-464). *)
Definition append_path (ret append : string) : string :=
  match append with
  | EmptyString => ret
  | String at0 _ =>
      let ret :=
        if bool_decide (at0 ≠ "\"%char) && bool_decide (at0 ≠ "/"%char)
        then ret +:+ path_separator
        else ret in
      ret +:+ append
  end.

(** [std::string ret = str] needs a non-null [str]; [free_string] then
    returns the host's buffer, which [ret] no longer refers to. *)
Definition GetAddonPath (append : string) : option string :=
  str ← get_addon_path toKodi; Some (append_path str append).

Definition GetBaseUserPath (append : string) : option string :=
  str ← get_base_user_path toKodi; Some (append_path str append).

(** [CheckSettingString] (l. 516-530): the flag and what [settingValue]
    holds afterwards. *)
Definition CheckSettingString (settingName settingValue : string) : bool * string :=
  let '(ret, buffer) := get_setting_string toKodi settingName in
  match buffer with
  | Some b => (ret, if ret then b else settingValue)
  | None => (ret, settingValue)
  end.

Definition GetSettingString (settingName : string) : string :=
  let settingValue := "" in
  (CheckSettingString settingName settingValue).2.

(** [CheckSettingInt], [CheckSettingBoolean], [CheckSettingFloat]: the
    host writes through the address of [settingValue]. *)
Definition CheckSettingInt (settingName : string) (settingValue : Z) : bool * Z :=
  get_setting_int toKodi settingName settingValue.

Definition GetSettingInt (settingName : string) : Z :=
  let settingValue := 0 in
  (CheckSettingInt settingName settingValue).2.

Definition CheckSettingBoolean (settingName : string) (settingValue : bool) : bool * bool :=
  get_setting_bool toKodi settingName settingValue.

Definition GetSettingBoolean (settingName : string) : bool :=
  let settingValue := false in
  (CheckSettingBoolean settingName settingValue).2.

Definition CheckSettingFloat (settingName : string) (settingValue : cfloat) : bool * cfloat :=
  get_setting_float toKodi settingName settingValue.

Definition GetSettingFloat (settingName : string) : cfloat :=
  let settingValue := float_zero in
  (CheckSettingFloat settingName settingValue).2.

End accessors.

(** The five primitive types a setting can have, as the getters of
    [CSettingValue] name them (l. 40-44), and the C++ type of each. *)
Inductive SettingType :=
| setting_string | setting_int | setting_uint | setting_boolean | setting_float.

Definition setting_value (t : SettingType) : Type :=
  match t with
  | setting_string => string
  | setting_int | setting_uint => Z
  | setting_boolean => bool
  | setting_float => cfloat
  end.

(** The checked get and the convenience get that the header defines for
    each type: [CheckSettingString]/[GetSettingString] (l. 516-540),
    [CheckSettingInt]/[GetSettingInt] (l. 556-572),
    [CheckSettingBoolean]/[GetSettingBoolean] (l. 588-604) and
    [CheckSettingFloat]/[GetSettingFloat] (l. 620-636).  It defines none
    for [unsigned int], and the host's table has no entry for one. *)
Definition checked_get (toKodi : AddonToKodiFuncTable_Addon) (t : SettingType)
    : option (string → setting_value t → bool * setting_value t) :=
  match t with
  | setting_string => Some (CheckSettingString toKodi)
  | setting_int => Some (CheckSettingInt toKodi)
  | setting_uint => None
  | setting_boolean => Some (CheckSettingBoolean toKodi)
  | setting_float => Some (CheckSettingFloat toKodi)
  end.

Definition convenience_get (toKodi : AddonToKodiFuncTable_Addon) (t : SettingType)
    : option (string → setting_value t) :=
  match t with
  | setting_string => Some (GetSettingString toKodi)
  | setting_int => Some (GetSettingInt toKodi)
  | setting_uint => None
  | setting_boolean => Some (GetSettingBoolean toKodi)
  | setting_float => Some (GetSettingFloat toKodi)
  end.

(** A host whose [get_setting_int] stores 42 and reports failure; every
    other entry reports failure and leaves its output alone. *)
Definition overwriting_host : AddonToKodiFuncTable_Addon := {|
  get_addon_path := Some "/addon";
  get_base_user_path := Some "/user";
  get_setting_string := λ _, (false, None);
  get_setting_int := λ _ _, (false, 42);
  get_setting_bool := λ _ v, (false, v);
  get_setting_float := λ _ v, (false, v)
|}.

(** ** [CSettingValue] *)

(** What the host keeps behind the [const void*] it hands to
    [ADDON_SetSetting]: a value of one of the five primitive types. *)
Inductive SettingCell :=
| cell_string (s : string)
| cell_int (i : Z)
| cell_uint (u : Z)
| cell_bool (b : bool)
| cell_float (f : cfloat).

Record CSettingValue := { m_settingValue : N }.

(** Reading through a pointer: undefined ([None]) for [nullptr] and for an
    address that holds no value. *)
Definition host_load (mem : gmap N SettingCell) (p : N) : option SettingCell :=
  if bool_decide (p = nullptr) then None else mem !! p.

Definition CSettingValue_empty (v : CSettingValue) : bool :=
  if bool_decide (m_settingValue v = nullptr) then true else false.

(** The getters (l. 40-44) read the cell as the type they are named
    after; no tag is kept, so a cell of another type is undefined too. *)
Definition CSettingValue_GetString (mem : gmap N SettingCell) (v : CSettingValue) : option string :=
  match host_load mem (m_settingValue v) with Some (cell_string s) => Some s | _ => None end.

Definition CSettingValue_GetInt (mem : gmap N SettingCell) (v : CSettingValue) : option Z :=
  match host_load mem (m_settingValue v) with Some (cell_int i) => Some i | _ => None end.

Definition CSettingValue_GetUInt (mem : gmap N SettingCell) (v : CSettingValue) : option Z :=
  match host_load mem (m_settingValue v) with Some (cell_uint u) => Some u | _ => None end.

Definition CSettingValue_GetBoolean (mem : gmap N SettingCell) (v : CSettingValue) : option bool :=
  match host_load mem (m_settingValue v) with Some (cell_bool b) => Some b | _ => None end.

Definition CSettingValue_GetFloat (mem : gmap N SettingCell) (v : CSettingValue) : option cfloat :=
  match host_load mem (m_settingValue v) with Some (cell_float f) => Some f | _ => None end.

(** ** [CStructHdl] *)

(** The two data members (l. 188, 191).  The wrapper is passed by value
    here; the record it points to lives in a heap shared by all wrappers,
    so two wrappers may refer to one record. *)
Record CStructHdl := {
  m_cStructure : N;
  m_owner : bool
}.

Section struct_hdl.
Context {C_STRUCT : Type}.

(** [new] yields an address that is not null and not in use; which one is
    up to the allocator. *)
Class Allocator := {
  allocate : gmap N C_STRUCT → N;
  allocate_nonnull heap : allocate heap ≠ nullptr;
  allocate_fresh heap : heap !! allocate heap = None
}.

#[refine] Instance fresh_allocator : Allocator := {|
  allocate heap := fresh ({[nullptr]} ∪ dom heap) |}.
Proof.
  - intros heap Heq.
    apply (is_fresh ({[nullptr]} ∪ dom heap)). rewrite Heq. set_solver.
  - intros heap. apply not_elem_of_dom.
    intros Hin. apply (is_fresh ({[nullptr]} ∪ dom heap)). set_solver.
Defined.

Context {alloc : Allocator} (C_STRUCT_init : C_STRUCT).

Definition struct_at (heap : gmap N C_STRUCT) (p : N) : option C_STRUCT :=
  if bool_decide (p = nullptr) then None else heap !! p.

(** [new C_STRUCT(v)] *)
Definition new_C_STRUCT (v : C_STRUCT) (heap : gmap N C_STRUCT) : N * gmap N C_STRUCT :=
  (allocate heap, <[allocate heap := v]> heap).

(** [delete p]: nothing for a null pointer, undefined for an address that
    holds no record. *)
Definition delete_C_STRUCT (p : N) (heap : gmap N C_STRUCT) : option (gmap N C_STRUCT) :=
  if bool_decide (p = nullptr) then Some heap
  else match heap !! p with
       | Some _ => Some (delete p heap)
       | None => None
       end.

(** [CStructHdl()] (l. 131); [C_STRUCT_init] is the value-initialised
    record [C_STRUCT()]. *)
Definition CStructHdl_default (heap : gmap N C_STRUCT) : CStructHdl * gmap N C_STRUCT :=
  let '(p, heap) := new_C_STRUCT C_STRUCT_init heap in
  ({| m_cStructure := p; m_owner := true |}, heap).

(** [CStructHdl(const CPP_CLASS& cppClass)] (l. 133-136) *)
Definition CStructHdl_copy (cppClass : CStructHdl) (heap : gmap N C_STRUCT)
    : option (CStructHdl * gmap N C_STRUCT) :=
  v ← struct_at heap (m_cStructure cppClass);
  let '(p, heap) := new_C_STRUCT v heap in
  Some ({| m_cStructure := p; m_owner := true |}, heap).

(** [CStructHdl(const C_STRUCT* cStructure)] (l. 138) *)
Definition CStructHdl_const_ptr (cStructure : N) (heap : gmap N C_STRUCT)
    : option (CStructHdl * gmap N C_STRUCT) :=
  v ← struct_at heap cStructure;
  let '(p, heap) := new_C_STRUCT v heap in
  Some ({| m_cStructure := p; m_owner := true |}, heap).

(** [CStructHdl(C_STRUCT* cStructure)] (l. 140): [m_owner] keeps its
    initialiser [false]; [None] is the failed [assert]. *)
Definition CStructHdl_ptr (cStructure : N) : option CStructHdl :=
  if bool_decide (cStructure ≠ nullptr)
  then Some {| m_cStructure := cStructure; m_owner := false |}
  else None.

(** [operator=(const CStructHdl& right)] (l. 142-157): the wrapper
    afterwards and the heap afterwards, [None] where the behaviour is
    undefined.  The [assert] on the address of a member cannot fail.
    [memcpy] needs both records; the copy constructor of the [else]
    branch reads [right]'s record after [delete] has run.

    The overload taking [const C_STRUCT&] (l. 159-174) applies unary [*]
    to its argument in the [else] branch, which no C structure supports,
    so it cannot be instantiated; assignments go through this overload. *)
Definition CStructHdl_assign (this right : CStructHdl) (heap : gmap N C_STRUCT)
    : option (CStructHdl * gmap N C_STRUCT) :=
  if bool_decide (m_cStructure this ≠ nullptr) && negb (m_owner this) then
    _ ← struct_at heap (m_cStructure this);
    v ← struct_at heap (m_cStructure right);
    Some (this, <[m_cStructure this := v]> heap)
  else
    heap ← (if m_owner this then delete_C_STRUCT (m_cStructure this) heap else Some heap);
    let this := {| m_cStructure := m_cStructure this; m_owner := true |} in
    v ← struct_at heap (m_cStructure right);
    let '(p, heap) := new_C_STRUCT v heap in
    Some ({| m_cStructure := p; m_owner := m_owner this |}, heap).

End struct_hdl.

(** ** Example add-ons *)

(** An add-on with several instances: no global single instance. *)
Definition multi_instance_interface : AddonGlobalInterface := {|
  libBasePath := "/usr/lib/kodi/addons";
  addonBase := 16;
  globalSingleInstance := nullptr;
  firstKodiInstance := 7
|}.

(** An add-on whose class is its only instance. *)
Definition single_instance_interface : AddonGlobalInterface := {|
  libBasePath := "/usr/lib/kodi/addons";
  addonBase := 16;
  globalSingleInstance := 24;
  firstKodiInstance := 7
|}.

Definition an_instance (type : Z) (id : string) : IAddonInstance :=
  {| m_type := type; m_kodiVersion := "2.0.0"; m_id := id |}.

Definition no_instances : World :=
  {| state := {| m_interface := multi_instance_interface; instances := ∅ |};
     calls := [] |}.

Definition one_instance : World :=
  {| state := {| m_interface := multi_instance_interface;
                 instances := {[ 64%N := an_instance 3 "first" ]} |};
     calls := [] |}.

Definition single_instance : World :=
  {| state := {| m_interface := single_instance_interface;
                 instances := {[ 24%N := an_instance 3 "" ]} |};
     calls := [] |}.

(** An override of [CAddonBase::CreateInstance] in the manner of the
    example in the header (l. 247-270): it makes an instance of the
    requested type, here at address 64, and returns [ADDON_STATUS_OK]. *)
Definition CMyAddon_CreateInstance `{codes : AddonStatusCodes} : CreateInstanceHook :=
  λ instanceType instanceID instance version addonInstance s,
    Returned (ADDON_STATUS_OK, 64%N)
      (set_instances s (<[64%N := an_instance instanceType ""]> (instances s))).

Definition CMyAddon `{codes : AddonStatusCodes} : VTable := {|
  instance_CreateInstance := λ _, IAddonInstance_CreateInstance;
  base_CreateInstance := CMyAddon_CreateInstance;
  base_DestroyInstance := CAddonBase_DestroyInstance;
  instance_destructor := λ _ s, s
|}.

(** ** The remaining dispatchers of [CAddonBase] *)

(** The other virtual member functions of the base object that the
    dispatchers call: [GetStatus], [SetSetting] and the destructor. *)
Record BaseVTable := {
  base_GetStatus : AddonState → Outcome AddonState ADDON_STATUS;
  base_SetSetting :
    string → CSettingValue → AddonState → Outcome AddonState ADDON_STATUS;
  base_destructor : AddonState → AddonState
}.

(** A hook run on the add-on's state, without an entry in the log. *)
Definition run_hook {A} (hook : AddonState → Outcome AddonState A) : M A := λ w,
  match hook (state w) with
  | Returned a s => Returned a (set_state w s)
  | Thrown e s => Thrown e (set_state w s)
  | Undefined s => Undefined (set_state w s)
  end.

(** A virtual call through a null [CAddonBase*]. *)
Definition undefined {A} : M A := λ w, Undefined w.

Definition set_addonBase (s : AddonState) (base : KODI_HANDLE) : AddonState :=
  {| m_interface :=
       {| libBasePath := libBasePath (m_interface s);
          addonBase := base;
          globalSingleInstance := globalSingleInstance (m_interface s);
          firstKodiInstance := firstKodiInstance (m_interface s) |};
     instances := instances s |}.

Section base_dispatch.
Context `{codes : AddonStatusCodes}.

(** [CAddonBase::GetStatus] (l. 211) and [CAddonBase::SetSetting]
    (l. 213-216) as the class defines them. *)
Definition CAddonBase_GetStatus (s : AddonState) : Outcome AddonState ADDON_STATUS :=
  Returned ADDON_STATUS_OK s.

Definition CAddonBase_SetSetting (settingName : string) (settingValue : CSettingValue)
    (s : AddonState) : Outcome AddonState ADDON_STATUS :=
  Returned ADDON_STATUS_UNKNOWN s.

Definition default_base_vtable : BaseVTable := {|
  base_GetStatus := CAddonBase_GetStatus;
  base_SetSetting := CAddonBase_SetSetting;
  base_destructor := λ s, s
|}.

Context (bvt : BaseVTable).

(** [ADDONBASE_Destroy] (l. 331-335): [delete] of a null pointer does
    nothing; otherwise the destructor of the base object runs.  Then the
    slot is cleared. *)
Definition ADDONBASE_Destroy : M () := λ w,
  let s :=
    if bool_decide (addonBase (m_interface (state w)) = nullptr) then state w
    else base_destructor bvt (state w) in
  Returned () (set_state w (set_addonBase s nullptr)).

(** [ADDONBASE_GetStatus] (l. 337-340) *)
Definition ADDONBASE_GetStatus : M ADDON_STATUS :=
  iface ← get_interface;
  if bool_decide (addonBase iface = nullptr) then undefined
  else run_hook (base_GetStatus bvt).

(** [ADDONBASE_SetSetting] (l. 342-346): the raw pointer reaches the hook
    wrapped in a [CSettingValue]. *)
Definition ADDONBASE_SetSetting (settingName : string) (settingValue : N) : M ADDON_STATUS :=
  iface ← get_interface;
  if bool_decide (addonBase iface = nullptr) then undefined
  else run_hook (base_SetSetting bvt settingName {| m_settingValue := settingValue |}).

End base_dispatch.

(** ** The destructor of [CStructHdl] *)

(** [~CStructHdl()] (l. 176-180): the heap afterwards, [None] where
    [delete] is undefined. *)
Definition CStructHdl_destroy {C_STRUCT : Type} (this : CStructHdl) (heap : gmap N C_STRUCT)
    : option (gmap N C_STRUCT) :=
  if m_owner this then delete_C_STRUCT (m_cStructure this) heap else Some heap.

(** * Properties *)

(** ** [TranslateAddonStatus] *)

Section status_facts.
Context `{codes : AddonStatusCodes}.

Lemma status_codes_apart :
  ∀ i j a b, i ≠ j →
    defined_status_codes !! i = Some a → defined_status_codes !! j = Some b → a ≠ b.
Proof.
  intros i j a b Hij Ha Hb Hab. subst b.
  apply Hij. exact (NoDup_lookup _ _ _ _ status_codes_distinct Ha Hb).
Qed.

Ltac status_label i :=
  unfold TranslateAddonStatus;
  repeat match goal with
  | |- context [Z.eqb ?c ?k] =>
      let Heq := fresh "Heq" in
      destruct (Z.eqb_spec c k) as [Heq | Heq];
      [ first [ reflexivity
              | exfalso; revert Heq;
                first [ by apply (status_codes_apart i 0) | by apply (status_codes_apart i 1)
                      | by apply (status_codes_apart i 2) | by apply (status_codes_apart i 3)
                      | by apply (status_codes_apart i 4) | by apply (status_codes_apart i 5)
                      | by apply (status_codes_apart i 6) ] ]
      | try done ]
  end.

(** C5.  [TranslateAddonStatus] gives each of the seven enumerators its
    own fixed label, none of them empty, and every other value of the
    status type the label ["Unknown"]; so it yields a non-empty label for
    every input. *)
Theorem TranslateAddonStatus_total :
  TranslateAddonStatus ADDON_STATUS_OK = "OK" ∧
  TranslateAddonStatus ADDON_STATUS_LOST_CONNECTION = "Lost Connection" ∧
  TranslateAddonStatus ADDON_STATUS_NEED_RESTART = "Need Restart" ∧
  TranslateAddonStatus ADDON_STATUS_NEED_SETTINGS = "Need Settings" ∧
  TranslateAddonStatus ADDON_STATUS_UNKNOWN = "Unknown error" ∧
  TranslateAddonStatus ADDON_STATUS_PERMANENT_FAILURE = "Permanent failure" ∧
  TranslateAddonStatus ADDON_STATUS_NOT_IMPLEMENTED = "Not implemented" ∧
  (∀ status, status ∉ defined_status_codes → TranslateAddonStatus status = "Unknown") ∧
  (∀ status, TranslateAddonStatus status ≠ "").
Proof.
  split; [ status_label 0%nat | ].
  split; [ status_label 1%nat | ].
  split; [ status_label 2%nat | ].
  split; [ status_label 3%nat | ].
  split; [ status_label 4%nat | ].
  split; [ status_label 5%nat | ].
  split; [ status_label 6%nat | ].
  split.
  - intros status Hout. unfold TranslateAddonStatus.
    repeat match goal with
    | |- context [Z.eqb ?c ?k] =>
        destruct (Z.eqb_spec c k) as [-> | _];
        [ exfalso; apply Hout; unfold defined_status_codes; set_solver | ]
    end.
    reflexivity.
  - intros status. unfold TranslateAddonStatus.
    repeat case_match; discriminate.
Qed.

End status_facts.

Lemma TranslateAddonStatus_total_witness :
  (7 ∉ defined_status_codes) ∧ TranslateAddonStatus 7 = "Unknown".
Proof.
  assert (Hout : 7 ∉ defined_status_codes).
  { apply (bool_decide_unpack _). vm_compute. exact I. }
  split; [ exact Hout | ].
  apply (@TranslateAddonStatus_total declaration_order_codes). exact Hout.
Defined.

(** ** Path accessors *)

Lemma string_append_assoc (a b c : string) : (a +:+ b) +:+ c = a +:+ b +:+ c.
Proof. induction a as [|x a IH]; [ reflexivity | ]. change (String x ((a +:+ b) +:+ c) = String x (a +:+ b +:+ c)). by rewrite IH. Qed.

Section path_facts.
Context (TARGET_WINDOWS : bool).

Lemma append_path_empty (ret : string) :
  append_path TARGET_WINDOWS ret "" = ret.
Proof. reflexivity. Qed.

Lemma append_path_relative (ret : string) (at0 : ascii) (rest : string) :
  at0 ≠ "/"%char → at0 ≠ "\"%char →
  append_path TARGET_WINDOWS ret (String at0 rest)
  = ret +:+ path_separator TARGET_WINDOWS +:+ String at0 rest.
Proof.
  intros Hslash Hback. unfold append_path.
  rewrite !bool_decide_eq_true_2 by assumption. simpl.
  apply string_append_assoc.
Qed.

Lemma append_path_rooted (ret : string) (at0 : ascii) (rest : string) :
  at0 = "/"%char ∨ at0 = "\"%char →
  append_path TARGET_WINDOWS ret (String at0 rest) = ret +:+ String at0 rest.
Proof.
  intros [-> | ->]; reflexivity.
Qed.

(** C7.  [GetAddonPath] and [GetBaseUserPath], given the path [path] the
    host supplies: an empty [append] returns [path] unchanged; an [append]
    whose first character is neither ['/'] nor ['\'] is joined to [path]
    with the platform's separator in between, which is the one-character
    string ["\"] when [TARGET_WINDOWS] is defined and ["/"] when it is
    not; an [append] that starts with one of the two is concatenated as
    it is, on either platform. *)
Theorem path_accessors_append (toKodi : AddonToKodiFuncTable_Addon) :
  (∀ path, get_addon_path toKodi = Some path →
     GetAddonPath TARGET_WINDOWS toKodi "" = Some path ∧
     (∀ at0 rest, at0 ≠ "/"%char → at0 ≠ "\"%char →
        GetAddonPath TARGET_WINDOWS toKodi (String at0 rest)
        = Some (path +:+ (if TARGET_WINDOWS then "\" else "/") +:+ String at0 rest)) ∧
     (∀ at0 rest, at0 = "/"%char ∨ at0 = "\"%char →
        GetAddonPath TARGET_WINDOWS toKodi (String at0 rest) = Some (path +:+ String at0 rest))) ∧
  (∀ path, get_base_user_path toKodi = Some path →
     GetBaseUserPath TARGET_WINDOWS toKodi "" = Some path ∧
     (∀ at0 rest, at0 ≠ "/"%char → at0 ≠ "\"%char →
        GetBaseUserPath TARGET_WINDOWS toKodi (String at0 rest)
        = Some (path +:+ (if TARGET_WINDOWS then "\" else "/") +:+ String at0 rest)) ∧
     (∀ at0 rest, at0 = "/"%char ∨ at0 = "\"%char →
        GetBaseUserPath TARGET_WINDOWS toKodi (String at0 rest) = Some (path +:+ String at0 rest))).
Proof.
  split; intros path Hpath.
  - unfold GetAddonPath. rewrite Hpath. cbn [mbind option_bind]. repeat split.
    + intros at0 rest H1 H2. rewrite append_path_relative by assumption.
      unfold path_separator. reflexivity.
    + intros at0 rest H. by rewrite append_path_rooted.
  - unfold GetBaseUserPath. rewrite Hpath. cbn [mbind option_bind]. repeat split.
    + intros at0 rest H1 H2. rewrite append_path_relative by assumption.
      unfold path_separator. reflexivity.
    + intros at0 rest H. by rewrite append_path_rooted.
Qed.

End path_facts.

Lemma path_accessors_append_witness :
  (GetAddonPath false overwriting_host "resources" = Some "/addon/resources" ∧
   GetAddonPath true overwriting_host "resources" = Some "/addon\resources") ∧
  (GetBaseUserPath false overwriting_host "cache" = Some "/user/cache" ∧
   GetBaseUserPath true overwriting_host "cache" = Some "/user\cache" ∧
   GetBaseUserPath false overwriting_host "\cache" = Some "/user\cache" ∧
   GetBaseUserPath true overwriting_host "/cache" = Some "/user/cache").
Proof.
  destruct (path_accessors_append false overwriting_host) as [Haddon Huser].
  destruct (path_accessors_append true overwriting_host) as [Haddon_win Huser_win].
  destruct (Haddon "/addon" eq_refl) as (_ & Hrelative & _).
  destruct (Haddon_win "/addon" eq_refl) as (_ & Hrelative_win & _).
  destruct (Huser "/user" eq_refl) as (_ & Huser_relative & Hrooted).
  destruct (Huser_win "/user" eq_refl) as (_ & Huser_relative_win & Hrooted_win).
  split; [ split | split; [ | split; [ | split ] ] ].
  - apply (Hrelative "r"%char "esources"); discriminate.
  - apply (Hrelative_win "r"%char "esources"); discriminate.
  - apply (Huser_relative "c"%char "ache"); discriminate.
  - apply (Huser_relative_win "c"%char "ache"); discriminate.
  - apply (Hrooted "\"%char "cache"). right. reflexivity.
  - apply (Hrooted_win "/"%char "cache"). left. reflexivity.
Defined.

(** ** Settings accessors *)

(** C6, as the code has it.  Accessors exist for four setting types:
    string, int, bool and float (there is none for unsigned).  Each
    checked get returns the host's flag.  [GetSettingString] returns the
    empty string whenever the host reports failure and the host's string
    whenever it reports success with a buffer.  [GetSettingInt],
    [GetSettingBoolean] and [GetSettingFloat] return what the host left
    in the output parameter, which held the default (0, false, 0.0f) when
    the host was called: the host-filled value on success, and the default
    on failure provided the host left the output as it was. *)
Theorem settings_get_returns_output (toKodi : AddonToKodiFuncTable_Addon) (settingName : string) :
  (∀ t, (is_Some (checked_get toKodi t) ↔ t ≠ setting_uint) ∧
        (is_Some (convenience_get toKodi t) ↔ t ≠ setting_uint)) ∧
  ((∀ init, (CheckSettingString toKodi settingName init).1
            = (get_setting_string toKodi settingName).1) ∧
   ((get_setting_string toKodi settingName).1 = false →
      GetSettingString toKodi settingName = "") ∧
   (∀ v, get_setting_string toKodi settingName = (true, Some v) →
      GetSettingString toKodi settingName = v)) ∧
  ((∀ init, CheckSettingInt toKodi settingName init = get_setting_int toKodi settingName init) ∧
   (∀ flag v, get_setting_int toKodi settingName 0 = (flag, v) →
      GetSettingInt toKodi settingName = v) ∧
   (get_setting_int toKodi settingName 0 = (false, 0) →
      GetSettingInt toKodi settingName = 0)) ∧
  ((∀ init, CheckSettingBoolean toKodi settingName init = get_setting_bool toKodi settingName init) ∧
   (∀ flag v, get_setting_bool toKodi settingName false = (flag, v) →
      GetSettingBoolean toKodi settingName = v) ∧
   (get_setting_bool toKodi settingName false = (false, false) →
      GetSettingBoolean toKodi settingName = false)) ∧
  ((∀ init, CheckSettingFloat toKodi settingName init = get_setting_float toKodi settingName init) ∧
   (∀ flag v, get_setting_float toKodi settingName float_zero = (flag, v) →
      GetSettingFloat toKodi settingName = v) ∧
   (get_setting_float toKodi settingName float_zero = (false, float_zero) →
      GetSettingFloat toKodi settingName = float_zero)).
Proof.
  split.
  { intros t. split; (split; [ intros [f Hf] -> | intros Ht ]);
      (discriminate || (destruct t; by eauto)). }
  repeat split.
  - intros init. unfold CheckSettingString.
    destruct (get_setting_string toKodi settingName) as [ret [b|]]; reflexivity.
  - unfold GetSettingString, CheckSettingString.
    destruct (get_setting_string toKodi settingName) as [ret [b|]]; simpl;
      intros ->; reflexivity.
  - intros v Hhost. unfold GetSettingString, CheckSettingString.
    rewrite Hhost. reflexivity.
  - intros flag v Hhost. unfold GetSettingInt, CheckSettingInt. by rewrite Hhost.
  - intros Hhost. unfold GetSettingInt, CheckSettingInt. by rewrite Hhost.
  - intros flag v Hhost. unfold GetSettingBoolean, CheckSettingBoolean. by rewrite Hhost.
  - intros Hhost. unfold GetSettingBoolean, CheckSettingBoolean. by rewrite Hhost.
  - intros flag v Hhost. unfold GetSettingFloat, CheckSettingFloat. by rewrite Hhost.
  - intros Hhost. unfold GetSettingFloat, CheckSettingFloat. by rewrite Hhost.
Qed.

Lemma settings_get_returns_output_witness :
  GetSettingString overwriting_host "username" = "" ∧
  GetSettingInt overwriting_host "port" = 42 ∧
  GetSettingBoolean overwriting_host "enabled" = false ∧
  GetSettingFloat overwriting_host "gain" = float_zero.
Proof.
  split; [ | split; [ | split ] ].
  - destruct (settings_get_returns_output overwriting_host "username") as (_ & (_ & Hfail & _) & _).
    apply Hfail. reflexivity.
  - destruct (settings_get_returns_output overwriting_host "port") as (_ & _ & (_ & Hint & _) & _).
    apply (Hint false 42). reflexivity.
  - destruct (settings_get_returns_output overwriting_host "enabled") as (_ & _ & _ & (_ & _ & Hbool) & _).
    apply Hbool. reflexivity.
  - destruct (settings_get_returns_output overwriting_host "gain") as (_ & _ & _ & _ & (_ & _ & Hfloat)).
    apply Hfloat. reflexivity.
Defined.

(** C6, as stated, fails twice.  There is no checked get and no
    convenience get for unsigned.  And with a host whose [get_setting_int]
    reports failure after storing 42 in the output parameter, the checked
    get reports failure and the convenience get returns 42, not the
    default 0. *)
Lemma GetSetting_not_default_on_failure :
  checked_get overwriting_host setting_uint = None ∧
  convenience_get overwriting_host setting_uint = None ∧
  (CheckSettingInt overwriting_host "port" 0).1 = false ∧
  GetSettingInt overwriting_host "port" ≠ 0.
Proof. repeat split. discriminate. Qed.

(** ** [CSettingValue] *)

(** C10.  [empty] needs no memory and answers for every view, the null
    one included; each of the five getters is undefined on the null view,
    so a getter that yields a value was called on a view that is not
    [empty].  On a view that is not [empty] a getter yields the value
    that the host keeps there, when it is of the getter's type. *)
Theorem CSettingValue_getters_need_nonempty (mem : gmap N SettingCell) :
  let null := {| m_settingValue := nullptr |} in
  (∀ v, CSettingValue_empty v = bool_decide (m_settingValue v = nullptr)) ∧
  CSettingValue_empty null = true ∧
  (CSettingValue_GetString mem null = None ∧
   CSettingValue_GetInt mem null = None ∧
   CSettingValue_GetUInt mem null = None ∧
   CSettingValue_GetBoolean mem null = None ∧
   CSettingValue_GetFloat mem null = None) ∧
  (∀ v, is_Some (CSettingValue_GetString mem v) ∨
        is_Some (CSettingValue_GetInt mem v) ∨
        is_Some (CSettingValue_GetUInt mem v) ∨
        is_Some (CSettingValue_GetBoolean mem v) ∨
        is_Some (CSettingValue_GetFloat mem v) →
        CSettingValue_empty v = false) ∧
  (∀ v, CSettingValue_empty v = false →
        (∀ s, mem !! m_settingValue v = Some (cell_string s) →
              CSettingValue_GetString mem v = Some s) ∧
        (∀ i, mem !! m_settingValue v = Some (cell_int i) →
              CSettingValue_GetInt mem v = Some i) ∧
        (∀ u, mem !! m_settingValue v = Some (cell_uint u) →
              CSettingValue_GetUInt mem v = Some u) ∧
        (∀ b, mem !! m_settingValue v = Some (cell_bool b) →
              CSettingValue_GetBoolean mem v = Some b) ∧
        (∀ f, mem !! m_settingValue v = Some (cell_float f) →
              CSettingValue_GetFloat mem v = Some f)).
Proof.
  cbv zeta. split; [ | split; [ | split; [ | split ] ] ].
  - intros v. unfold CSettingValue_empty. by case_bool_decide.
  - reflexivity.
  - repeat split.
  - intros [p] Hsome.
    unfold CSettingValue_empty, CSettingValue_GetString, CSettingValue_GetInt,
      CSettingValue_GetUInt, CSettingValue_GetBoolean, CSettingValue_GetFloat,
      host_load in *.
    simpl in *. case_bool_decide; [ | reflexivity ].
    destruct Hsome as [Hs | [Hs | [Hs | [Hs | Hs]]]]; by destruct Hs.
  - intros [p] Hne.
    unfold CSettingValue_empty, CSettingValue_GetString, CSettingValue_GetInt,
      CSettingValue_GetUInt, CSettingValue_GetBoolean, CSettingValue_GetFloat,
      host_load in *.
    simpl in *. case_bool_decide; [ discriminate | ].
    repeat split; intros x ->; reflexivity.
Qed.

Lemma CSettingValue_getters_need_nonempty_witness :
  CSettingValue_empty {| m_settingValue := 16 |} = false ∧
  CSettingValue_GetInt {[ 16%N := cell_int 7 ]} {| m_settingValue := 16 |} = Some 7.
Proof.
  destruct (CSettingValue_getters_need_nonempty {[ 16%N := cell_int 7 ]})
    as (_ & _ & _ & Hnonempty & Hget).
  assert (Hint : CSettingValue_GetInt {[ 16%N := cell_int 7 ]} {| m_settingValue := 16 |} = Some 7).
  { apply Hget; reflexivity. }
  split; [ | exact Hint ].
  apply Hnonempty. right. left. rewrite Hint. by eexists.
Defined.

(** ** Instance creation *)

Ltac check_phase :=
  unfold throw, instance_at, store_instance, stamp_id;
  repeat first
    [ reflexivity
    | congruence
    | case_bool_decide
    | match goal with
      | |- context [instances ?s !! ?h] => destruct (instances s !! h) eqn:?
      end ].

Section create_facts.
Context `{codes : AddonStatusCodes} (vt : VTable).
Context (instanceType : Z) (instanceID : string) (instance : KODI_HANDLE) (version : string).

Local Abbreviation parent_event parent :=
  (call_IAddonInstance_CreateInstance parent instanceType instanceID instance version).
Local Abbreviation base_event :=
  (call_CAddonBase_CreateInstance instanceType instanceID instance version).
Local Abbreviation dispatch := (ADDONBASE_CreateInstance vt instanceType instanceID instance version).
Local Abbreviation hooks := (CreateInstance_hooks vt instanceType instanceID instance version).

(** The dispatcher is its two hook calls followed by the checks on what
    they left in [*addonInstance]. *)
Lemma ADDONBASE_CreateInstance_unfold addonInstance parent w :
  dispatch addonInstance parent w
  = match hooks addonInstance parent w with
    | Returned (status, h) w1 =>
        if bool_decide (h = nullptr) then Thrown empty_instance_error w1
        else match instances (state w1) !! h with
             | None => Undefined w1
             | Some obj =>
                 if bool_decide (m_type obj ≠ instanceType)
                 then Thrown created_type_error w1
                 else Returned (status, h) (stamp_id w1 h obj instanceID)
             end
    | Thrown e w1 => Thrown e w1
    | Undefined w1 => Undefined w1
    end.
Proof.
  unfold ADDONBASE_CreateInstance, CreateInstance_hooks.
  unfold mbind, M_bind, mret, M_ret, get_interface.
  destruct (bool_decide (parent ≠ nullptr)).
  - destruct (virtual_IAddonInstance _ _ _ w) as [[status h] w1 | e w1 | w1];
      try reflexivity.
    destruct (status =? ADDON_STATUS_NOT_IMPLEMENTED).
    + destruct (virtual_CAddonBase _ _ _ w1) as [[status' h'] w2 | e w2 | w2];
        try reflexivity.
      check_phase.
    + check_phase.
  - rewrite Z.eqb_refl.
    destruct (virtual_CAddonBase _ _ _ w) as [[status' h'] w2 | e w2 | w2];
      try reflexivity.
    check_phase.
Qed.

Lemma ADDONBASE_CreateInstance_null addonInstance parent w status w1 :
  hooks addonInstance parent w = Returned (status, nullptr) w1 →
  dispatch addonInstance parent w = Thrown empty_instance_error w1.
Proof. intros Hhooks. rewrite ADDONBASE_CreateInstance_unfold, Hhooks. reflexivity. Qed.

Lemma ADDONBASE_CreateInstance_mismatch addonInstance parent w status created w1 obj :
  hooks addonInstance parent w = Returned (status, created) w1 →
  created ≠ nullptr →
  instances (state w1) !! created = Some obj →
  m_type obj ≠ instanceType →
  dispatch addonInstance parent w = Thrown created_type_error w1.
Proof.
  intros Hhooks Hnonnull Hobj Htype.
  rewrite ADDONBASE_CreateInstance_unfold, Hhooks, Hobj.
  by rewrite bool_decide_eq_false_2, bool_decide_eq_true_2.
Qed.

Lemma ADDONBASE_CreateInstance_stamps addonInstance parent w status created w1 obj :
  hooks addonInstance parent w = Returned (status, created) w1 →
  created ≠ nullptr →
  instances (state w1) !! created = Some obj →
  m_type obj = instanceType →
  dispatch addonInstance parent w
  = Returned (status, created) (stamp_id w1 created obj instanceID).
Proof.
  intros Hhooks Hnonnull Hobj Htype.
  rewrite ADDONBASE_CreateInstance_unfold, Hhooks, Hobj.
  rewrite bool_decide_eq_false_2 by assumption.
  rewrite bool_decide_eq_false_2; [ reflexivity | ]. by intros [].
Qed.

(** C1.  Let the hooks (the parent's, then the base object's) return
    status [status] and leave [created] in [*addonInstance].  If [created]
    is null, [std::logic_error] about the empty instance is thrown; if the
    object at [created] records a type other than [instanceType],
    [std::logic_error] about the differing type is thrown; otherwise
    [instanceID] is stored in the [m_id] of the object at [created] and
    [status] is returned to the host. *)
Theorem ADDONBASE_CreateInstance_checks addonInstance parent w status created w1 :
  hooks addonInstance parent w = Returned (status, created) w1 →
  (created = nullptr →
     dispatch addonInstance parent w = Thrown empty_instance_error w1) ∧
  (∀ obj, created ≠ nullptr → instances (state w1) !! created = Some obj →
     m_type obj ≠ instanceType →
     dispatch addonInstance parent w = Thrown created_type_error w1) ∧
  (∀ obj, created ≠ nullptr → instances (state w1) !! created = Some obj →
     m_type obj = instanceType →
     dispatch addonInstance parent w
     = Returned (status, created) (stamp_id w1 created obj instanceID) ∧
     instances (state (stamp_id w1 created obj instanceID)) !! created
     = Some {| m_type := m_type obj; m_kodiVersion := m_kodiVersion obj;
               m_id := instanceID |}).
Proof.
  intros Hhooks. split; [ | split ].
  - intros ->. exact (ADDONBASE_CreateInstance_null _ _ _ _ _ Hhooks).
  - intros obj. exact (ADDONBASE_CreateInstance_mismatch _ _ _ _ _ _ _ Hhooks).
  - intros obj Hnonnull Hobj Htype. split.
    + exact (ADDONBASE_CreateInstance_stamps _ _ _ _ _ _ _ Hhooks Hnonnull Hobj Htype).
    + simpl. by rewrite lookup_insert_eq.
Qed.

Lemma ADDONBASE_CreateInstance_calls addonInstance parent w :
  calls (outcome_state (dispatch addonInstance parent w))
  = calls (outcome_state (hooks addonInstance parent w)).
Proof.
  rewrite ADDONBASE_CreateInstance_unfold.
  destruct (hooks addonInstance parent w) as [[status h] w1 | e w1 | w1];
    [ | reflexivity | reflexivity ].
  repeat case_match; reflexivity.
Qed.

Lemma call_hook_calls {A} ev (hook : AddonState → Outcome AddonState A) w :
  calls (outcome_state (call_hook ev hook w)) = calls w ++ [ev].
Proof. unfold call_hook. simpl. by destruct (hook (state w)). Qed.

Lemma virtual_CAddonBase_live {A} base ev (hook : AddonState → Outcome AddonState A) w :
  base ≠ nullptr → virtual_CAddonBase base ev hook w = call_hook ev hook w.
Proof. intros Hbase. unfold virtual_CAddonBase. by rewrite bool_decide_eq_false_2. Qed.

Lemma virtual_IAddonInstance_live {A} this ev (hook : AddonState → Outcome AddonState A) w :
  this ≠ nullptr → is_Some (instances (state w) !! this) →
  virtual_IAddonInstance this ev hook w = call_hook ev hook w.
Proof.
  intros Hthis [obj Hobj]. unfold virtual_IAddonInstance, mbind, M_bind, instance_at.
  cbv beta. rewrite bool_decide_eq_false_2 by assumption.
  cbv beta iota. by rewrite Hobj.
Qed.

(** With a null parent the hook phase is the call of the base object's
    hook. *)
Lemma CreateInstance_hooks_no_parent addonInstance w :
  addonBase (m_interface (state w)) ≠ nullptr →
  hooks addonInstance nullptr w
  = call_hook base_event
      (base_CreateInstance vt instanceType instanceID instance version addonInstance) w.
Proof.
  intros Hbase. unfold CreateInstance_hooks, mbind, M_bind, mret, M_ret, get_interface.
  rewrite bool_decide_eq_false_2 by (by intros []).
  rewrite Z.eqb_refl. by apply virtual_CAddonBase_live.
Qed.

(** With a parent the hook phase calls the parent's hook and goes on to
    the base object's hook exactly on [ADDON_STATUS_NOT_IMPLEMENTED]. *)
Lemma CreateInstance_hooks_parent addonInstance parent w :
  parent ≠ nullptr → is_Some (instances (state w) !! parent) →
  addonBase (m_interface (state w)) ≠ nullptr →
  hooks addonInstance parent w
  = match call_hook (parent_event parent)
            (instance_CreateInstance vt parent instanceType instanceID instance version
               addonInstance) w with
    | Returned (status, h) w1 =>
        if status =? ADDON_STATUS_NOT_IMPLEMENTED
        then call_hook base_event
               (base_CreateInstance vt instanceType instanceID instance version h) w1
        else Returned (status, h) w1
    | Thrown e w1 => Thrown e w1
    | Undefined w1 => Undefined w1
    end.
Proof.
  intros Hparent Hlive Hbase.
  unfold CreateInstance_hooks, mbind, M_bind, mret, M_ret, get_interface.
  rewrite bool_decide_eq_true_2 by assumption.
  rewrite virtual_IAddonInstance_live by assumption.
  destruct (call_hook _ _ w) as [[status h] w1 | e w1 | w1]; try reflexivity.
  destruct (status =? ADDON_STATUS_NOT_IMPLEMENTED); [ | reflexivity ].
  by apply virtual_CAddonBase_live.
Qed.

(** C3.  [IAddonInstance::CreateInstance], unless overridden, returns
    [ADDON_STATUS_NOT_IMPLEMENTED] and changes nothing.  A creation call
    with a parent calls the parent's hook first, and then the base
    object's hook if and only if the parent's hook returned
    [ADDON_STATUS_NOT_IMPLEMENTED]; with a null parent it calls the base
    object's hook only. *)
Theorem CreateInstance_hook_order :
  (∀ h s, IAddonInstance_CreateInstance instanceType instanceID instance version h s
          = Returned (ADDON_STATUS_NOT_IMPLEMENTED, h) s) ∧
  (∀ addonInstance parent w,
     parent ≠ nullptr → is_Some (instances (state w) !! parent) →
     addonBase (m_interface (state w)) ≠ nullptr →
     calls (outcome_state (dispatch addonInstance parent w))
     = calls w ++ parent_event parent ::
         (if returned_status
               (instance_CreateInstance vt parent instanceType instanceID instance version
                  addonInstance (state w))
               ADDON_STATUS_NOT_IMPLEMENTED
          then [base_event] else [])) ∧
  (∀ addonInstance w,
     addonBase (m_interface (state w)) ≠ nullptr →
     calls (outcome_state (dispatch addonInstance nullptr w)) = calls w ++ [base_event]).
Proof.
  split; [ reflexivity | split ].
  - intros addonInstance parent w Hparent Hlive Hbase.
    rewrite ADDONBASE_CreateInstance_calls, CreateInstance_hooks_parent by assumption.
    unfold call_hook at 1. simpl.
    destruct (instance_CreateInstance _ _ _ _ _ _ _ _) as [[status h] s1 | e s1 | s1];
      simpl; [ | reflexivity | reflexivity ].
    destruct (status =? ADDON_STATUS_NOT_IMPLEMENTED); [ | reflexivity ].
    rewrite call_hook_calls. simpl. by rewrite <- (assoc_L (++)).
  - intros addonInstance w Hbase.
    rewrite ADDONBASE_CreateInstance_calls, CreateInstance_hooks_no_parent by assumption.
    apply call_hook_calls.
Qed.

(** C9.  The checks and the stamping do not look at the status.  When
    the hooks return a status other than [ADDON_STATUS_OK]: a null
    [*addonInstance] raises the empty-instance error; a handle to an
    instance of another type raises the type error; and a handle to an
    instance of the requested type has [instanceID] stored in its [m_id]
    before that status is returned to the host.  In particular, when the
    parent's hook declines and the base object's hook fails, both leaving
    [*addonInstance] null, the error is raised and the failure status is
    not returned. *)
Theorem CreateInstance_checks_ignore_status :
  (∀ addonInstance parent w status created w1,
     hooks addonInstance parent w = Returned (status, created) w1 →
     status ≠ ADDON_STATUS_OK →
     (created = nullptr →
        dispatch addonInstance parent w = Thrown empty_instance_error w1) ∧
     (∀ obj, created ≠ nullptr → instances (state w1) !! created = Some obj →
        m_type obj ≠ instanceType →
        dispatch addonInstance parent w = Thrown created_type_error w1) ∧
     (∀ obj, created ≠ nullptr → instances (state w1) !! created = Some obj →
        m_type obj = instanceType →
        ∃ w2,
          dispatch addonInstance parent w = Returned (status, created) w2 ∧
          w2 = stamp_id w1 created obj instanceID ∧
          instances (state w2) !! created
          = Some {| m_type := m_type obj; m_kodiVersion := m_kodiVersion obj;
                    m_id := instanceID |} ∧
          (∀ other, other ≠ created →
             instances (state w2) !! other = instances (state w1) !! other) ∧
          m_interface (state w2) = m_interface (state w1) ∧
          calls w2 = calls w1)) ∧
  (∀ addonInstance parent w s1 status s2,
     parent ≠ nullptr → is_Some (instances (state w) !! parent) →
     addonBase (m_interface (state w)) ≠ nullptr →
     instance_CreateInstance vt parent instanceType instanceID instance version
       addonInstance (state w)
     = Returned (ADDON_STATUS_NOT_IMPLEMENTED, nullptr) s1 →
     base_CreateInstance vt instanceType instanceID instance version nullptr s1
     = Returned (status, nullptr) s2 →
     status ≠ ADDON_STATUS_OK →
     dispatch addonInstance parent w
     = Thrown empty_instance_error
         {| state := s2; calls := calls w ++ [parent_event parent; base_event] |}).
Proof.
  split.
  - intros addonInstance parent w status created w1 Hhooks _. split; [ | split ].
    + intros ->. exact (ADDONBASE_CreateInstance_null _ _ _ _ _ Hhooks).
    + intros obj. exact (ADDONBASE_CreateInstance_mismatch _ _ _ _ _ _ _ Hhooks).
    + intros obj Hnonnull Hobj Htype.
      exists (stamp_id w1 created obj instanceID).
      split; [ exact (ADDONBASE_CreateInstance_stamps _ _ _ _ _ _ _
                        Hhooks Hnonnull Hobj Htype) | ].
      split; [ reflexivity | ]. simpl. split; [ by rewrite lookup_insert_eq | ].
      split; [ | by split ].
      intros other Hother. by rewrite lookup_insert_ne.
  - intros addonInstance parent w s1 status s2 Hparent Hlive Hbase Hp Hb _.
    apply (ADDONBASE_CreateInstance_null _ _ _ status).
    rewrite CreateInstance_hooks_parent by assumption.
    unfold call_hook at 1. simpl. rewrite Hp, Z.eqb_refl.
    unfold call_hook. simpl. rewrite Hb. unfold set_state. simpl.
    by rewrite <- (assoc_L (++)).
Qed.

End create_facts.

Lemma ADDONBASE_CreateInstance_checks_witness :
  ADDONBASE_CreateInstance CMyAddon 3 "saver" 7 "2.0.0" nullptr nullptr no_instances
  = Returned (ADDON_STATUS_OK, 64%N)
      {| state := {| m_interface := multi_instance_interface;
                     instances := {[ 64%N := an_instance 3 "saver" ]} |};
         calls := [call_CAddonBase_CreateInstance 3 "saver" 7 "2.0.0"] |}.
Proof.
  pose (w1 := {| state := {| m_interface := multi_instance_interface;
                             instances := {[ 64%N := an_instance 3 "" ]} |};
                 calls := [call_CAddonBase_CreateInstance 3 "saver" 7 "2.0.0"] |}).
  assert (Hhooks :
    CreateInstance_hooks CMyAddon 3 "saver" 7 "2.0.0" nullptr nullptr no_instances
    = Returned (ADDON_STATUS_OK, 64%N) w1) by reflexivity.
  destruct (ADDONBASE_CreateInstance_checks CMyAddon 3 "saver" 7 "2.0.0"
              nullptr nullptr no_instances ADDON_STATUS_OK 64%N w1 Hhooks)
    as (_ & _ & Hstamp).
  destruct (Hstamp (an_instance 3 "")) as [Hreturned _];
    [ discriminate | reflexivity | reflexivity | ].
  rewrite Hreturned. reflexivity.
Defined.

Lemma CreateInstance_hook_order_witness :
  calls (outcome_state
           (ADDONBASE_CreateInstance default_vtable 3 "saver" 7 "2.0.0" nullptr 64%N
              one_instance))
  = [call_IAddonInstance_CreateInstance 64%N 3 "saver" 7 "2.0.0";
     call_CAddonBase_CreateInstance 3 "saver" 7 "2.0.0"].
Proof.
  destruct (CreateInstance_hook_order default_vtable 3 "saver" 7 "2.0.0")
    as (_ & Hparent & _).
  rewrite (Hparent nullptr 64%N one_instance);
    [ reflexivity | discriminate | by eexists | discriminate ].
Defined.

Lemma CreateInstance_checks_ignore_status_witness :
  ADDONBASE_CreateInstance default_vtable 3 "saver" 7 "2.0.0" nullptr 64%N one_instance
  = Thrown empty_instance_error
      {| state := state one_instance;
         calls := [call_IAddonInstance_CreateInstance 64%N 3 "saver" 7 "2.0.0";
                   call_CAddonBase_CreateInstance 3 "saver" 7 "2.0.0"] |} ∧
  ADDONBASE_CreateInstance default_vtable 5 "saver" 7 "2.0.0" 64%N nullptr one_instance
  = Thrown created_type_error
      {| state := state one_instance;
         calls := [call_CAddonBase_CreateInstance 5 "saver" 7 "2.0.0"] |} ∧
  ADDONBASE_CreateInstance default_vtable 3 "saver" 7 "2.0.0" 64%N nullptr one_instance
  = Returned (ADDON_STATUS_UNKNOWN, 64%N)
      {| state := {| m_interface := multi_instance_interface;
                     instances := {[ 64%N := an_instance 3 "saver" ]} |};
         calls := [call_CAddonBase_CreateInstance 3 "saver" 7 "2.0.0"] |}.
Proof.
  split; [ | split ].
  - destruct (CreateInstance_checks_ignore_status default_vtable 3 "saver" 7 "2.0.0")
      as (_ & Hboth).
    apply (Hboth nullptr 64%N one_instance (state one_instance) ADDON_STATUS_UNKNOWN
             (state one_instance));
      [ discriminate | by eexists | discriminate | reflexivity | reflexivity | discriminate ].
  - destruct (CreateInstance_checks_ignore_status default_vtable 5 "saver" 7 "2.0.0")
      as (Hany & _).
    destruct (Hany 64%N nullptr one_instance ADDON_STATUS_UNKNOWN 64%N
                {| state := state one_instance;
                   calls := [call_CAddonBase_CreateInstance 5 "saver" 7 "2.0.0"] |})
      as (_ & Hmismatch & _); [ reflexivity | discriminate | ].
    apply (Hmismatch (an_instance 3 "first")); [ discriminate | reflexivity | discriminate ].
  - destruct (CreateInstance_checks_ignore_status default_vtable 3 "saver" 7 "2.0.0")
      as (Hany & _).
    destruct (Hany 64%N nullptr one_instance ADDON_STATUS_UNKNOWN 64%N
                {| state := state one_instance;
                   calls := [call_CAddonBase_CreateInstance 3 "saver" 7 "2.0.0"] |})
      as (_ & _ & Hstamp); [ reflexivity | discriminate | ].
    destruct (Hstamp (an_instance 3 "first")) as (w2 & Hreturned & -> & _);
      [ discriminate | reflexivity | reflexivity | ].
    rewrite Hreturned. reflexivity.
Defined.

(** ** The single default instance *)

Section single_instance_facts.
Context `{codes : AddonStatusCodes}.

(** C4.  When the host handle of the request is the one recorded at load
    time and the requested type is the type of the global single
    instance, [CAddonBase::CreateInstance] hands out that instance with
    [ADDON_STATUS_OK] and leaves the state as it is.  Dispatched to an
    add-on that keeps this [CreateInstance], without a parent or with a
    parent whose hook declines, the request returns that instance and
    [ADDON_STATUS_OK]; no hook other than these is called, and the only
    change made after them is the identifier stored in the instance. *)
Theorem single_instance_CreateInstance
    (instanceType : Z) (instanceID : string) (instance : KODI_HANDLE) (version : string)
    (s : AddonState) (obj : IAddonInstance) :
  firstKodiInstance (m_interface s) = instance →
  globalSingleInstance (m_interface s) ≠ nullptr →
  instances s !! globalSingleInstance (m_interface s) = Some obj →
  m_type obj = instanceType →
  let single := globalSingleInstance (m_interface s) in
  let base_event := call_CAddonBase_CreateInstance instanceType instanceID instance version in
  (∀ addonInstance,
     CAddonBase_CreateInstance instanceType instanceID instance version addonInstance s
     = Returned (ADDON_STATUS_OK, single) s) ∧
  (∀ vt log addonInstance,
     base_CreateInstance vt = CAddonBase_CreateInstance →
     addonBase (m_interface s) ≠ nullptr →
     ADDONBASE_CreateInstance vt instanceType instanceID instance version
       addonInstance nullptr {| state := s; calls := log |}
     = Returned (ADDON_STATUS_OK, single)
         (stamp_id {| state := s; calls := log ++ [base_event] |}
            single obj instanceID)) ∧
  (∀ vt w addonInstance parent declined,
     base_CreateInstance vt = CAddonBase_CreateInstance →
     parent ≠ nullptr → is_Some (instances (state w) !! parent) →
     addonBase (m_interface (state w)) ≠ nullptr →
     instance_CreateInstance vt parent instanceType instanceID instance version
       addonInstance (state w)
     = Returned (ADDON_STATUS_NOT_IMPLEMENTED, declined) s →
     ADDONBASE_CreateInstance vt instanceType instanceID instance version
       addonInstance parent w
     = Returned (ADDON_STATUS_OK, single)
         (stamp_id
            {| state := s;
               calls := calls w ++
                 [call_IAddonInstance_CreateInstance parent
                    instanceType instanceID instance version;
                  base_event] |}
            single obj instanceID)).
Proof.
  intros Hhost Hsingle Hobj Htype single base_event.
  assert (Hhook : ∀ addonInstance,
    CAddonBase_CreateInstance instanceType instanceID instance version addonInstance s
    = Returned (ADDON_STATUS_OK, single) s).
  { intros addonInstance. unfold CAddonBase_CreateInstance.
    rewrite !bool_decide_eq_true_2 by assumption. rewrite Hobj.
    by rewrite bool_decide_eq_true_2. }
  split; [ exact Hhook | split ].
  - intros vt log addonInstance Hvt Hbase.
    apply ADDONBASE_CreateInstance_stamps; [ | assumption.. ].
    rewrite CreateInstance_hooks_no_parent by assumption.
    unfold call_hook. simpl. rewrite Hvt, Hhook. reflexivity.
  - intros vt w addonInstance parent declined Hvt Hparent Hlive Hbase Hdeclines.
    apply ADDONBASE_CreateInstance_stamps; [ | assumption.. ].
    rewrite CreateInstance_hooks_parent by assumption.
    unfold call_hook at 1. simpl. rewrite Hdeclines, Z.eqb_refl.
    unfold call_hook. simpl. rewrite Hvt, Hhook. unfold set_state. simpl.
    by rewrite <- (assoc_L (++)).
Qed.

End single_instance_facts.

Lemma single_instance_CreateInstance_witness :
  ADDONBASE_CreateInstance default_vtable 3 "saver" 7 "2.0.0" nullptr nullptr single_instance
  = Returned (ADDON_STATUS_OK, 24%N)
      {| state := {| m_interface := single_instance_interface;
                     instances := {[ 24%N := an_instance 3 "saver" ]} |};
         calls := [call_CAddonBase_CreateInstance 3 "saver" 7 "2.0.0"] |}.
Proof.
  destruct (single_instance_CreateInstance 3 "saver" 7 "2.0.0"
              (state single_instance) (an_instance 3 ""))
    as (_ & Hdispatch & _); [ reflexivity | discriminate | reflexivity | reflexivity | ].
  rewrite (Hdispatch default_vtable [] nullptr); [ reflexivity | reflexivity | discriminate ].
Defined.

(** ** Instance destruction *)

Section destroy_facts.
Context (vt : VTable).

Lemma ADDONBASE_DestroyInstance_skips instanceType instance w :
  globalSingleInstance (m_interface (state w)) ≠ nullptr ∨
  instance = addonBase (m_interface (state w)) →
  ADDONBASE_DestroyInstance vt instanceType instance w = Returned () w.
Proof.
  intros Hskip. unfold ADDONBASE_DestroyInstance, mbind, M_bind, get_interface.
  destruct Hskip as [Hsingle | Hbase].
  - by rewrite bool_decide_eq_false_2.
  - rewrite (bool_decide_eq_false_2 (instance ≠ _)) by (by intros []).
    by rewrite andb_false_r.
Qed.

Lemma ADDONBASE_DestroyInstance_enters instanceType instance w obj :
  globalSingleInstance (m_interface (state w)) = nullptr →
  instance ≠ addonBase (m_interface (state w)) →
  instance ≠ nullptr →
  instances (state w) !! instance = Some obj →
  ADDONBASE_DestroyInstance vt instanceType instance w
  = if bool_decide (m_type obj = instanceType) then
      match virtual_CAddonBase (addonBase (m_interface (state w)))
              (call_CAddonBase_DestroyInstance instanceType (m_id obj) instance)
              (base_DestroyInstance vt instanceType (m_id obj) instance) w with
      | Returned _ w1 => delete_IAddonInstance vt instance w1
      | Thrown e w1 => Thrown e w1
      | Undefined w1 => Undefined w1
      end
    else Thrown destroyed_type_error w.
Proof.
  intros Hmulti Hbase Hnonnull Hobj.
  unfold ADDONBASE_DestroyInstance, mbind, M_bind, get_interface, instance_at.
  rewrite !bool_decide_eq_true_2 by assumption. simpl.
  rewrite bool_decide_eq_false_2 by assumption. rewrite Hobj.
  by case_bool_decide.
Qed.

(** C2.  With a global single instance configured, or with the base
    object itself as the handle, [ADDONBASE_DestroyInstance] does
    nothing.  Otherwise, for a handle to an instance: if the instance
    records a type other than [instanceType], [std::logic_error] about the
    differing type is thrown and nothing is changed; if the types agree,
    the base object's [DestroyInstance] hook is called with
    [instanceType], the identifier stored in the instance and the handle,
    and after it returns the instance is deleted. *)
Theorem ADDONBASE_DestroyInstance_cases (instanceType : Z) (instance : KODI_HANDLE) (w : World) :
  let iface := m_interface (state w) in
  (globalSingleInstance iface ≠ nullptr ∨ instance = addonBase iface →
     ADDONBASE_DestroyInstance vt instanceType instance w = Returned () w) ∧
  (∀ obj,
     globalSingleInstance iface = nullptr → instance ≠ addonBase iface →
     instance ≠ nullptr → instances (state w) !! instance = Some obj →
     (m_type obj ≠ instanceType →
        ADDONBASE_DestroyInstance vt instanceType instance w
        = Thrown destroyed_type_error w) ∧
     (m_type obj = instanceType → addonBase iface ≠ nullptr →
        ∀ s1,
          base_DestroyInstance vt instanceType (m_id obj) instance (state w)
          = Returned () s1 →
          is_Some (instances s1 !! instance) →
          ADDONBASE_DestroyInstance vt instanceType instance w
          = Returned ()
              {| state := deleted vt instance s1;
                 calls := calls w ++
                   [call_CAddonBase_DestroyInstance instanceType (m_id obj) instance] |} ∧
          instances (deleted vt instance s1) !! instance = None)).
Proof.
  cbv zeta. split; [ apply ADDONBASE_DestroyInstance_skips | ].
  intros obj Hmulti Hnotbase Hnonnull Hobj. split.
  - intros Htype. rewrite (ADDONBASE_DestroyInstance_enters _ _ _ obj) by assumption.
    by rewrite bool_decide_eq_false_2.
  - intros Htype Hbase s1 Hhook [obj1 Hlive]. split.
    + rewrite (ADDONBASE_DestroyInstance_enters _ _ _ obj) by assumption.
      rewrite bool_decide_eq_true_2 by assumption.
      unfold virtual_CAddonBase. rewrite bool_decide_eq_false_2 by assumption.
      unfold call_hook. simpl. rewrite Hhook.
      unfold delete_IAddonInstance. simpl.
      rewrite bool_decide_eq_false_2 by assumption. by rewrite Hlive.
    + unfold deleted. simpl. apply lookup_delete_eq.
Qed.

End destroy_facts.

Lemma ADDONBASE_DestroyInstance_cases_witness :
  ADDONBASE_DestroyInstance default_vtable 3 64%N one_instance
  = Returned ()
      {| state := {| m_interface := multi_instance_interface; instances := ∅ |};
         calls := [call_CAddonBase_DestroyInstance 3 "first" 64%N] |}.
Proof.
  destruct (ADDONBASE_DestroyInstance_cases default_vtable 3 64%N one_instance)
    as [_ Hlive].
  destruct (Hlive (an_instance 3 "first")) as [_ Hmatch];
    [ reflexivity | discriminate | discriminate | reflexivity | ].
  destruct (Hmatch eq_refl) with (s1 := state one_instance) as [Hreturned _];
    [ discriminate | reflexivity | by eexists | ].
  rewrite Hreturned. reflexivity.
Defined.

(** ** [CStructHdl] *)

Section struct_hdl_facts.
Context {C_STRUCT : Type} {alloc : Allocator (C_STRUCT := C_STRUCT)}.
Context (C_STRUCT_init : C_STRUCT).

Lemma new_C_STRUCT_holds (v : C_STRUCT) (heap : gmap N C_STRUCT) :
  struct_at (new_C_STRUCT v heap).2 (new_C_STRUCT v heap).1 = Some v.
Proof.
  unfold new_C_STRUCT, struct_at. simpl.
  rewrite bool_decide_eq_false_2 by apply allocate_nonnull.
  apply lookup_insert_eq.
Qed.

Lemma delete_C_STRUCT_live (p : N) (heap : gmap N C_STRUCT) (v : C_STRUCT) :
  struct_at heap p = Some v → delete_C_STRUCT p heap = Some (delete p heap).
Proof.
  unfold struct_at, delete_C_STRUCT. case_bool_decide; [ discriminate | ].
  by intros ->.
Qed.

(** Assigning an owning wrapper to itself reads the record that was just
    deleted. *)
Lemma CStructHdl_assign_self_owner (this : CStructHdl) (heap : gmap N C_STRUCT) (v : C_STRUCT) :
  m_owner this = true → struct_at heap (m_cStructure this) = Some v →
  CStructHdl_assign this this heap = None.
Proof.
  intros Howner Hlive. unfold CStructHdl_assign.
  rewrite Howner, andb_false_r. rewrite (delete_C_STRUCT_live _ _ v Hlive). simpl.
  unfold struct_at in *. case_bool_decide; [ reflexivity | ].
  by rewrite lookup_delete_eq.
Qed.

(** C8.  The constructor taking a non-const pointer yields a wrapper that
    aliases the given record and does not own it; the default, copy and
    const-pointer constructors yield a wrapper that owns a record of its
    own.  Assignment to an aliasing wrapper stores the source record in
    the aliased record and leaves the wrapper, its pointer included, as it
    was.  Assignment to an owning wrapper deletes the owned record and
    makes the wrapper own a newly allocated copy of the source record. *)
Theorem CStructHdl_assign_by_mode (right : CStructHdl) (heap : gmap N C_STRUCT) :
  (∀ cStructure this, CStructHdl_ptr cStructure = Some this →
     m_cStructure this = cStructure ∧ cStructure ≠ nullptr ∧ m_owner this = false) ∧
  (∀ heap0 this heap1, CStructHdl_default C_STRUCT_init heap0 = (this, heap1) →
     m_owner this = true ∧ struct_at heap1 (m_cStructure this) = Some C_STRUCT_init) ∧
  (∀ heap0 cppClass this heap1, CStructHdl_copy cppClass heap0 = Some (this, heap1) →
     m_owner this = true ∧
     struct_at heap1 (m_cStructure this) = struct_at heap0 (m_cStructure cppClass)) ∧
  (∀ heap0 cStructure this heap1, CStructHdl_const_ptr cStructure heap0 = Some (this, heap1) →
     m_owner this = true ∧
     struct_at heap1 (m_cStructure this) = struct_at heap0 cStructure) ∧
  (∀ this dst src,
     m_owner this = false →
     struct_at heap (m_cStructure this) = Some dst →
     struct_at heap (m_cStructure right) = Some src →
     CStructHdl_assign this right heap = Some (this, <[m_cStructure this := src]> heap)) ∧
  (∀ this old src,
     m_owner this = true →
     struct_at heap (m_cStructure this) = Some old →
     let heap1 := delete (m_cStructure this) heap in
     struct_at heap1 (m_cStructure right) = Some src →
     let p := allocate heap1 in
     CStructHdl_assign this right heap
     = Some ({| m_cStructure := p; m_owner := true |}, <[p := src]> heap1) ∧
     p ≠ nullptr ∧ heap1 !! p = None).
Proof.
  repeat apply conj.
  - intros cStructure this. unfold CStructHdl_ptr.
    case_bool_decide; [ | discriminate ]. by intros [= <-].
  - intros heap0 this heap1 [= <- <-]. split; [ reflexivity | ].
    apply (new_C_STRUCT_holds C_STRUCT_init heap0).
  - intros heap0 cppClass this heap1. unfold CStructHdl_copy.
    destruct (struct_at heap0 (m_cStructure cppClass)) as [v|]; [ | discriminate ].
    intros [= <- <-]. split; [ reflexivity | ]. apply (new_C_STRUCT_holds v heap0).
  - intros heap0 cStructure this heap1. unfold CStructHdl_const_ptr.
    destruct (struct_at heap0 cStructure) as [v|]; [ | discriminate ].
    intros [= <- <-]. split; [ reflexivity | ]. apply (new_C_STRUCT_holds v heap0).
  - intros this dst src Howner Hdst Hsrc. unfold CStructHdl_assign.
    rewrite Howner, Hdst, Hsrc. simpl.
    rewrite bool_decide_eq_true_2; [ reflexivity | ].
    intros Hnull. unfold struct_at in Hdst. by rewrite Hnull in Hdst.
  - intros this old src Howner Hold heap1 Hsrc p. split; [ | split ].
    + unfold CStructHdl_assign. rewrite Howner, andb_false_r.
      rewrite (delete_C_STRUCT_live _ _ old Hold). simpl.
      fold heap1. rewrite Hsrc. reflexivity.
    + apply allocate_nonnull.
    + apply allocate_fresh.
Qed.

End struct_hdl_facts.

Lemma CStructHdl_assign_by_mode_witness :
  let heap : gmap N Z := {[ 64%N := 1; 80%N := 2 ]} in
  let right := {| m_cStructure := 80; m_owner := true |} in
  CStructHdl_assign (alloc := fresh_allocator) {| m_cStructure := 64; m_owner := false |} right heap
  = Some ({| m_cStructure := 64; m_owner := false |}, {[ 64%N := 2; 80%N := 2 ]}) ∧
  CStructHdl_assign (alloc := fresh_allocator) {| m_cStructure := 64; m_owner := true |} right heap
  = Some ({| m_cStructure := 81; m_owner := true |}, {[ 80%N := 2; 81%N := 2 ]}).
Proof.
  cbv zeta.
  destruct (CStructHdl_assign_by_mode (alloc := fresh_allocator) 0
              {| m_cStructure := 80; m_owner := true |} {[ 64%N := 1; 80%N := 2 ]})
    as (_ & _ & _ & _ & Halias & Howning).
  split.
  - rewrite (Halias {| m_cStructure := 64; m_owner := false |} 1 2);
      reflexivity.
  - destruct (Howning {| m_cStructure := 64; m_owner := true |} 1 2) as [Hassign _];
      [ reflexivity | reflexivity | reflexivity | ].
    rewrite Hassign. vm_compute. reflexivity.
Defined.

(** * Further properties *)

(** ** What a successful creation guarantees *)

Section create_guarantees.
Context `{codes : AddonStatusCodes} (vt : VTable).
Context (instanceType : Z) (instanceID : string) (instance : KODI_HANDLE) (version : string).

Local Abbreviation dispatch := (ADDONBASE_CreateInstance vt instanceType instanceID instance version).
Local Abbreviation hooks := (CreateInstance_hooks vt instanceType instanceID instance version).

(** A creation call returns only through the last line of the
    dispatcher: the hooks returned, the handle passed both checks and the
    identifier was stored. *)
Lemma ADDONBASE_CreateInstance_returned addonInstance parent w status h w' :
  dispatch addonInstance parent w = Returned (status, h) w' →
  ∃ w1 obj,
    hooks addonInstance parent w = Returned (status, h) w1 ∧
    h ≠ nullptr ∧
    instances (state w1) !! h = Some obj ∧
    m_type obj = instanceType ∧
    w' = stamp_id w1 h obj instanceID.
Proof.
  rewrite ADDONBASE_CreateInstance_unfold.
  destruct (hooks addonInstance parent w) as [[status1 h1] w1 | e w1 | w1];
    [ | discriminate | discriminate ].
  case_bool_decide as Hnull; [ discriminate | ].
  destruct (instances (state w1) !! h1) as [obj|] eqn:Hobj; [ | discriminate ].
  case_bool_decide as Htype; [ discriminate | ].
  intros [= <- <- <-]. exists w1, obj. repeat split; try done.
Qed.

Lemma ADDONBASE_CreateInstance_returns_stamped_aux {addonInstance parent w status h w'} :
  dispatch addonInstance parent w = Returned (status, h) w' →
  h ≠ nullptr ∧
  ∃ obj, instances (state w') !! h = Some obj ∧
         m_type obj = instanceType ∧ m_id obj = instanceID.
Proof.
  intros Hret.
  destruct (ADDONBASE_CreateInstance_returned _ _ _ _ _ _ Hret)
    as (w1 & obj & _ & Hnonnull & _ & Htype & ->).
  split; [ assumption | ].
  exists (set_m_id obj instanceID). simpl. by rewrite lookup_insert_eq.
Qed.

(** X1.  Whatever the hooks do, a creation call that returns hands the
    host a handle that is not null and refers to a live instance whose
    recorded type is the requested type and whose [m_id] is the requested
    identifier. *)
Theorem ADDONBASE_CreateInstance_returns_stamped addonInstance parent w status h w' :
  dispatch addonInstance parent w = Returned (status, h) w' →
  h ≠ nullptr ∧
  ∃ obj, instances (state w') !! h = Some obj ∧
         m_type obj = instanceType ∧ m_id obj = instanceID.
Proof. apply ADDONBASE_CreateInstance_returns_stamped_aux. Qed.

(** X2.  Beyond what the hooks did, a creation call that returns has
    changed nothing but the [m_id] of the created instance: the interface
    struct, the calls made and every other instance are as the hooks left
    them, and the created instance keeps its type and version. *)
Theorem ADDONBASE_CreateInstance_changes_id_only addonInstance parent w status h w' :
  dispatch addonInstance parent w = Returned (status, h) w' →
  ∃ w1 obj,
    hooks addonInstance parent w = Returned (status, h) w1 ∧
    instances (state w1) !! h = Some obj ∧
    m_interface (state w') = m_interface (state w1) ∧
    calls w' = calls w1 ∧
    (∀ other, other ≠ h →
       instances (state w') !! other = instances (state w1) !! other) ∧
    instances (state w') !! h = Some (set_m_id obj instanceID).
Proof.
  intros Hret.
  destruct (ADDONBASE_CreateInstance_returned _ _ _ _ _ _ Hret)
    as (w1 & obj & Hhooks & _ & Hobj & _ & ->).
  exists w1, obj. repeat split; try done.
  - intros other Hother. simpl. by rewrite lookup_insert_ne.
  - simpl. by rewrite lookup_insert_eq.
Qed.

End create_guarantees.

Lemma ADDONBASE_CreateInstance_returns_stamped_witness :
  (64%N ≠ nullptr) ∧
  ∃ obj, instances {| m_interface := multi_instance_interface;
                      instances := {[ 64%N := an_instance 3 "saver" ]} |} !! 64%N
         = Some obj ∧ m_type obj = 3 ∧ m_id obj = "saver".
Proof.
  apply (ADDONBASE_CreateInstance_returns_stamped CMyAddon 3 "saver" 7 "2.0.0"
           nullptr nullptr no_instances ADDON_STATUS_OK 64%N
           {| state := {| m_interface := multi_instance_interface;
                          instances := {[ 64%N := an_instance 3 "saver" ]} |};
              calls := [call_CAddonBase_CreateInstance 3 "saver" 7 "2.0.0"] |}).
  reflexivity.
Defined.

Lemma ADDONBASE_CreateInstance_changes_id_only_witness :
  ∃ w1,
    CreateInstance_hooks CMyAddon 3 "saver" 7 "2.0.0" nullptr nullptr no_instances
    = Returned (ADDON_STATUS_OK, 64%N) w1 ∧
    calls w1 = [call_CAddonBase_CreateInstance 3 "saver" 7 "2.0.0"].
Proof.
  destruct (ADDONBASE_CreateInstance_changes_id_only CMyAddon 3 "saver" 7 "2.0.0"
              nullptr nullptr no_instances ADDON_STATUS_OK 64%N
              {| state := {| m_interface := multi_instance_interface;
                             instances := {[ 64%N := an_instance 3 "saver" ]} |};
                 calls := [call_CAddonBase_CreateInstance 3 "saver" 7 "2.0.0"] |})
    as (w1 & obj & Hhooks & _ & _ & Hcalls & _); [ reflexivity | ].
  exists w1. split; [ exact Hhooks | symmetry; exact Hcalls ].
Defined.

(** ** [CAddonBase::CreateInstance] as the class defines it *)

Section default_create_facts.
Context `{codes : AddonStatusCodes}.
Context (instanceType : Z) (instanceID : string) (instance : KODI_HANDLE) (version : string).

(** X3.  The [CreateInstance] of the base class never throws and never
    changes the state.  When the host handle is the one recorded at load
    time, a single instance is set and its type is the requested one, it
    returns [ADDON_STATUS_OK] with the global single instance.  When no
    single instance is set, or the host handle differs, or the single
    instance has another type, it returns [ADDON_STATUS_UNKNOWN] and
    leaves [addonInstance] as it was.  It returns in no other way; the one
    remaining case, a non-null single-instance pointer to no live object
    under a matching host handle, is undefined. *)
Theorem CAddonBase_CreateInstance_cases (addonInstance : KODI_HANDLE) (s : AddonState) :
  let single := globalSingleInstance (m_interface s) in
  let targets_single :=
    firstKodiInstance (m_interface s) = instance ∧ single ≠ nullptr ∧
    ∃ obj, instances s !! single = Some obj ∧ m_type obj = instanceType in
  let misses_single :=
    firstKodiInstance (m_interface s) ≠ instance ∨ single = nullptr ∨
    ∃ obj, instances s !! single = Some obj ∧ m_type obj ≠ instanceType in
  (targets_single →
     CAddonBase_CreateInstance instanceType instanceID instance version addonInstance s
     = Returned (ADDON_STATUS_OK, single) s) ∧
  (misses_single →
     CAddonBase_CreateInstance instanceType instanceID instance version addonInstance s
     = Returned (ADDON_STATUS_UNKNOWN, addonInstance) s) ∧
  (firstKodiInstance (m_interface s) = instance → single ≠ nullptr →
     instances s !! single = None →
     CAddonBase_CreateInstance instanceType instanceID instance version addonInstance s
     = Undefined s) ∧
  (∀ e s', CAddonBase_CreateInstance instanceType instanceID instance version addonInstance s
           ≠ Thrown e s') ∧
  (∀ status h s',
     CAddonBase_CreateInstance instanceType instanceID instance version addonInstance s
     = Returned (status, h) s' →
     s' = s ∧
     ((status = ADDON_STATUS_OK ∧ h = single ∧ targets_single) ∨
      (status = ADDON_STATUS_UNKNOWN ∧ h = addonInstance ∧ ¬ targets_single))).
Proof.
  cbv zeta. unfold CAddonBase_CreateInstance. repeat apply conj.
  - intros (Hhost & Hsingle & obj & Hobj & Htype).
    rewrite !bool_decide_eq_true_2 by assumption. rewrite Hobj.
    by rewrite bool_decide_eq_true_2.
  - intros [Hhost | [Hnone | (obj & Hobj & Htype)]].
    + by rewrite (bool_decide_eq_false_2 (_ = instance)).
    + rewrite (bool_decide_eq_false_2 (_ ≠ nullptr)) by (by intros []).
      by case_bool_decide.
    + rewrite Hobj, (bool_decide_eq_false_2 (m_type obj = _)) by assumption.
      by repeat case_bool_decide.
  - intros Hhost Hsingle Hnone.
    rewrite !bool_decide_eq_true_2 by assumption. by rewrite Hnone.
  - intros e s'. repeat case_bool_decide; try discriminate.
    destruct (instances s !! _); [ | discriminate ]. case_bool_decide; discriminate.
  - intros status h s'.
    case_bool_decide as Hhost;
      [ | intros [= <- <- <-]; split; [ done | right; repeat split ];
          by intros (? & _) ].
    case_bool_decide as Hsingle;
      [ | intros [= <- <- <-]; split; [ done | right; repeat split ];
          by intros (_ & ? & _) ].
    destruct (instances s !! _) as [obj|] eqn:Hobj; [ | discriminate ].
    case_bool_decide as Htype; intros [= <- <- <-]; (split; [ done | ]).
    + left. repeat split; try done. by exists obj.
    + right. repeat split. intros (_ & _ & obj' & Hobj' & Htype').
      congruence.
Qed.

(** X4.  An add-on that overrides no [CreateInstance] hands out nothing
    but its global single instance.  A request that does not target that
    instance (none is set, the host handle differs, or the type differs),
    made with a null [*addonInstance] and no parent, ends in the
    empty-instance error: the [ADDON_STATUS_UNKNOWN] of the hook does not
    reach the host. *)
Theorem default_addon_creates_nothing (w : World) :
  let iface := m_interface (state w) in
  addonBase iface ≠ nullptr →
  globalSingleInstance iface = nullptr ∨
  firstKodiInstance iface ≠ instance ∨
  (∃ obj, instances (state w) !! globalSingleInstance iface = Some obj ∧
          m_type obj ≠ instanceType) →
  ADDONBASE_CreateInstance default_vtable instanceType instanceID instance version
    nullptr nullptr w
  = Thrown empty_instance_error
      {| state := state w;
         calls := calls w ++
           [call_CAddonBase_CreateInstance instanceType instanceID instance version] |}.
Proof.
  cbv zeta. intros Hbase Hmiss.
  apply (ADDONBASE_CreateInstance_null _ _ _ _ _ _ _ _ ADDON_STATUS_UNKNOWN).
  rewrite CreateInstance_hooks_no_parent by assumption.
  unfold call_hook. simpl. unfold CAddonBase_CreateInstance.
  destruct Hmiss as [Hnone | [Hhost | (obj & Hobj & Htype)]].
  - rewrite (bool_decide_eq_false_2 (_ ≠ nullptr)) by (by intros []).
    by case_bool_decide.
  - by rewrite (bool_decide_eq_false_2 (_ = instance)).
  - rewrite Hobj, (bool_decide_eq_false_2 (m_type obj = _)) by assumption.
    by repeat case_bool_decide.
Qed.

End default_create_facts.

Lemma CAddonBase_CreateInstance_cases_witness :
  CAddonBase_CreateInstance 3 "saver" 7%N "2.0.0" nullptr (state single_instance)
  = Returned (ADDON_STATUS_OK, 24%N) (state single_instance) ∧
  CAddonBase_CreateInstance 5 "saver" 7%N "2.0.0" nullptr (state single_instance)
  = Returned (ADDON_STATUS_UNKNOWN, nullptr) (state single_instance) ∧
  CAddonBase_CreateInstance 3 "saver" 8%N "2.0.0" 64%N (state single_instance)
  = Returned (ADDON_STATUS_UNKNOWN, 64%N) (state single_instance) ∧
  CAddonBase_CreateInstance 3 "saver" 7%N "2.0.0" 64%N (state one_instance)
  = Returned (ADDON_STATUS_UNKNOWN, 64%N) (state one_instance).
Proof.
  split; [ | split; [ | split ] ].
  - destruct (CAddonBase_CreateInstance_cases 3 "saver" 7%N "2.0.0" nullptr
                (state single_instance)) as (Htargets & _).
    apply Htargets. split; [ reflexivity | ]. split; [ discriminate | ].
    exists (an_instance 3 ""). split; reflexivity.
  - destruct (CAddonBase_CreateInstance_cases 5 "saver" 7%N "2.0.0" nullptr
                (state single_instance)) as (_ & Hmisses & _).
    apply Hmisses. right. right. exists (an_instance 3 "").
    split; [ reflexivity | discriminate ].
  - destruct (CAddonBase_CreateInstance_cases 3 "saver" 8%N "2.0.0" 64%N
                (state single_instance)) as (_ & Hmisses & _).
    apply Hmisses. left. discriminate.
  - destruct (CAddonBase_CreateInstance_cases 3 "saver" 7%N "2.0.0" 64%N
                (state one_instance)) as (_ & Hmisses & _).
    apply Hmisses. right. left. reflexivity.
Defined.

Lemma default_addon_creates_nothing_witness :
  ADDONBASE_CreateInstance default_vtable 3 "saver" 7 "2.0.0" nullptr nullptr one_instance
  = Thrown empty_instance_error
      {| state := state one_instance;
         calls := [call_CAddonBase_CreateInstance 3 "saver" 7 "2.0.0"] |}.
Proof.
  apply (default_addon_creates_nothing 3 "saver" 7 "2.0.0" one_instance).
  - discriminate.
  - left. reflexivity.
Defined.

(** ** Creating an instance and destroying it again *)

Section create_destroy_facts.
Context `{codes : AddonStatusCodes} (vt : VTable).
Context (instanceType : Z) (instanceID : string) (instance : KODI_HANDLE) (version : string).

Local Abbreviation dispatch := (ADDONBASE_CreateInstance vt instanceType instanceID instance version).



(** X6.  In an add-on without a global single instance, destroying a
    created instance that is not the base object itself under any type
    other than the one it was created with throws the type error of
    [ADDONBASE_DestroyInstance]; no hook is called, nothing is changed and
    the instance stays.  (With a global single instance set, or for the
    base object's own handle, the call does nothing whatever the type.) *)
Theorem create_then_destroy_other_type addonInstance parent w status h w1 other :
  dispatch addonInstance parent w = Returned (status, h) w1 →
  globalSingleInstance (m_interface (state w1)) = nullptr →
  h ≠ addonBase (m_interface (state w1)) →
  other ≠ instanceType →
  ADDONBASE_DestroyInstance vt other h w1 = Thrown destroyed_type_error w1 ∧
  is_Some (instances (state w1) !! h).
Proof.
  intros Hcreated Hmulti Hnotbase Hother.
  destruct (ADDONBASE_CreateInstance_returns_stamped_aux _ _ _ _ _ Hcreated)
    as (Hnonnull & obj & Hobj & Htype & Hid).
  split; [ | by eexists ].
  rewrite (ADDONBASE_DestroyInstance_enters _ _ _ _ obj) by assumption.
  rewrite bool_decide_eq_false_2; [ reflexivity | congruence ].
Qed.

End create_destroy_facts.


Lemma create_then_destroy_other_type_witness :
  let created :=
    {| state := {| m_interface := multi_instance_interface;
                   instances := {[ 64%N := an_instance 3 "saver" ]} |};
       calls := [call_CAddonBase_CreateInstance 3 "saver" 7 "2.0.0"] |} in
  ADDONBASE_DestroyInstance CMyAddon 5 64%N created = Thrown destroyed_type_error created.
Proof.
  cbv zeta.
  apply (create_then_destroy_other_type CMyAddon 3 "saver" 7 "2.0.0" nullptr nullptr
           no_instances ADDON_STATUS_OK 64%N);
    [ reflexivity | reflexivity | discriminate | discriminate ].
Defined.

(** ** Destroying the base object *)

Section base_facts.
Context `{codes : AddonStatusCodes} (bvt : BaseVTable).

(** X7.  [ADDONBASE_Destroy] leaves the slot of the base object null, and
    a second [ADDONBASE_Destroy] changes nothing: it deletes a null
    pointer, so the destructor does not run again. *)
Theorem ADDONBASE_Destroy_twice (w : World) :
  let w1 := outcome_state (ADDONBASE_Destroy bvt w) in
  ADDONBASE_Destroy bvt w = Returned () w1 ∧
  addonBase (m_interface (state w1)) = nullptr ∧
  ADDONBASE_Destroy bvt w1 = Returned () w1.
Proof.
  cbv zeta. unfold ADDONBASE_Destroy. simpl. repeat split.
Qed.

(** X8.  Once [ADDONBASE_Destroy] has run, the dispatchers that call a
    virtual member function of the base object are undefined:
    [ADDONBASE_GetStatus], [ADDONBASE_SetSetting], a creation call without
    a parent, and the destruction of an instance under its own type. *)
Theorem dispatch_after_Destroy (vt : VTable) (w w1 : World) :
  ADDONBASE_Destroy bvt w = Returned () w1 →
  ADDONBASE_GetStatus bvt w1 = Undefined w1 ∧
  (∀ settingName settingValue,
     ADDONBASE_SetSetting bvt settingName settingValue w1 = Undefined w1) ∧
  (∀ instanceType instanceID instance version addonInstance,
     ADDONBASE_CreateInstance vt instanceType instanceID instance version
       addonInstance nullptr w1 = Undefined w1) ∧
  (∀ h obj,
     globalSingleInstance (m_interface (state w1)) = nullptr →
     h ≠ nullptr → instances (state w1) !! h = Some obj →
     ADDONBASE_DestroyInstance vt (m_type obj) h w1 = Undefined w1).
Proof.
  intros Hdestroy.
  assert (Hnull : addonBase (m_interface (state w1)) = nullptr).
  { unfold ADDONBASE_Destroy in Hdestroy. by injection Hdestroy as <-. }
  repeat split.
  - unfold ADDONBASE_GetStatus, mbind, M_bind, get_interface.
    by rewrite bool_decide_eq_true_2.
  - intros settingName settingValue.
    unfold ADDONBASE_SetSetting, mbind, M_bind, get_interface.
    by rewrite bool_decide_eq_true_2.
  - intros instanceType instanceID instance version addonInstance.
    rewrite ADDONBASE_CreateInstance_unfold.
    unfold CreateInstance_hooks, mbind, M_bind, mret, M_ret, get_interface.
    rewrite bool_decide_eq_false_2 by (by intros []).
    rewrite Z.eqb_refl. unfold virtual_CAddonBase.
    by rewrite bool_decide_eq_true_2.
  - intros h obj Hmulti Hnonnull Hobj.
    rewrite (ADDONBASE_DestroyInstance_enters _ _ _ _ obj); try assumption.
    + rewrite bool_decide_eq_true_2 by reflexivity.
      unfold virtual_CAddonBase. by rewrite bool_decide_eq_true_2.
    + by rewrite Hnull.
Qed.

End base_facts.

Lemma dispatch_after_Destroy_witness :
  let destroyed :=
    {| state := {| m_interface :=
                     {| libBasePath := "/usr/lib/kodi/addons"; addonBase := nullptr;
                        globalSingleInstance := nullptr; firstKodiInstance := 7 |};
                   instances := {[ 64%N := an_instance 3 "first" ]} |};
       calls := [] |} in
  ADDONBASE_GetStatus default_base_vtable destroyed = Undefined destroyed ∧
  ADDONBASE_DestroyInstance default_vtable 3 64%N destroyed = Undefined destroyed.
Proof.
  cbv zeta.
  destruct (dispatch_after_Destroy default_base_vtable default_vtable one_instance
              {| state := {| m_interface :=
                               {| libBasePath := "/usr/lib/kodi/addons"; addonBase := nullptr;
                                  globalSingleInstance := nullptr; firstKodiInstance := 7 |};
                             instances := {[ 64%N := an_instance 3 "first" ]} |};
                 calls := [] |} eq_refl)
    as (Hstatus & _ & _ & Hdestroy).
  split; [ exact Hstatus | ].
  apply (Hdestroy 64%N (an_instance 3 "first")); [ reflexivity | discriminate | reflexivity ].
Defined.

(** ** Labels identify the status *)

Section status_labels.
Context `{codes : AddonStatusCodes}.

Ltac label_of i :=
  unfold TranslateAddonStatus;
  repeat match goal with
  | |- context [Z.eqb ?c ?k] =>
      let Heq := fresh "Heq" in
      destruct (Z.eqb_spec c k) as [Heq | Heq];
      [ first [ reflexivity
              | exfalso; revert Heq;
                first [ by apply (status_codes_apart i 0) | by apply (status_codes_apart i 1)
                      | by apply (status_codes_apart i 2) | by apply (status_codes_apart i 3)
                      | by apply (status_codes_apart i 4) | by apply (status_codes_apart i 5)
                      | by apply (status_codes_apart i 6) ] ]
      | try done ]
  end.

Lemma TranslateAddonStatus_defined (i : nat) (c : ADDON_STATUS) :
  defined_status_codes !! i = Some c →
  ["OK"; "Lost Connection"; "Need Restart"; "Need Settings"; "Unknown error";
   "Permanent failure"; "Not implemented"] !! i = Some (TranslateAddonStatus c).
Proof.
  destruct i as [|[|[|[|[|[|[|i]]]]]]]; simpl; intros Hc; try discriminate;
    injection Hc as <-; f_equal; symmetry.
  - label_of 0%nat.
  - label_of 1%nat.
  - label_of 2%nat.
  - label_of 3%nat.
  - label_of 4%nat.
  - label_of 5%nat.
  - label_of 6%nat.
Qed.

(** X9.  The label tells the status: two enumerators with the same label
    are the same enumerator, and the label is ["Unknown"] exactly for the
    values that are no enumerator. *)
Theorem TranslateAddonStatus_identifies :
  (∀ a b, a ∈ defined_status_codes → b ∈ defined_status_codes →
     TranslateAddonStatus a = TranslateAddonStatus b → a = b) ∧
  (∀ status, TranslateAddonStatus status = "Unknown" ↔ status ∉ defined_status_codes).
Proof.
  assert (Hlabels : NoDup ["OK"; "Lost Connection"; "Need Restart"; "Need Settings";
                           "Unknown error"; "Permanent failure"; "Not implemented"]).
  { apply (bool_decide_unpack _). vm_compute. exact I. }
  split.
  - intros a b Ha Hb Hlabel.
    apply list_elem_of_lookup_1 in Ha as [i Hi], Hb as [j Hj].
    pose proof (TranslateAddonStatus_defined i a Hi) as Hla.
    pose proof (TranslateAddonStatus_defined j b Hj) as Hlb.
    rewrite Hlabel in Hla.
    pose proof (NoDup_lookup _ _ _ _ Hlabels Hla Hlb) as ->. congruence.
  - intros status. split.
    + intros Hunknown Hin.
      apply list_elem_of_lookup_1 in Hin as [i Hi].
      pose proof (TranslateAddonStatus_defined i status Hi) as Hl.
      rewrite Hunknown in Hl. apply list_elem_of_lookup_2 in Hl.
      revert Hl. apply (bool_decide_unpack _). vm_compute. exact I.
    + intros Hout. unfold TranslateAddonStatus.
      repeat match goal with
      | |- context [Z.eqb ?c ?k] =>
          destruct (Z.eqb_spec c k) as [-> | _];
          [ exfalso; apply Hout; unfold defined_status_codes; set_solver | ]
      end.
      reflexivity.
Qed.

End status_labels.

Lemma TranslateAddonStatus_identifies_witness :
  ADDON_STATUS_NEED_RESTART = 2 ∧ (TranslateAddonStatus 9 = "Unknown").
Proof.
  destruct (@TranslateAddonStatus_identifies declaration_order_codes) as [Hsame Hunknown].
  split.
  - apply Hsame; [ | | reflexivity ];
      apply (bool_decide_unpack _); vm_compute; exact I.
  - apply Hunknown. apply (bool_decide_unpack _). vm_compute. exact I.
Defined.

(** ** Settings and paths *)

(** X10.  [CheckSettingString] leaves the caller's [settingValue] as it
    was unless the host reports success and hands back a buffer; also
    when the host reports success without a buffer.  The flag is the
    host's in every case. *)
Theorem CheckSettingString_keeps_value (toKodi : AddonToKodiFuncTable_Addon)
    (settingName settingValue : string) :
  (∀ v, get_setting_string toKodi settingName = (true, Some v) →
     CheckSettingString toKodi settingName settingValue = (true, v)) ∧
  ((∀ v, get_setting_string toKodi settingName ≠ (true, Some v)) →
     CheckSettingString toKodi settingName settingValue
     = ((get_setting_string toKodi settingName).1, settingValue)).
Proof.
  unfold CheckSettingString. split.
  - by intros v ->.
  - intros Hnot. destruct (get_setting_string toKodi settingName) as [[|] [b|]];
      try reflexivity.
    by destruct (Hnot b).
Qed.

Lemma CheckSettingString_keeps_value_witness :
  CheckSettingString overwriting_host "username" "guest" = (false, "guest").
Proof.
  destruct (CheckSettingString_keeps_value overwriting_host "username" "guest")
    as [_ Hkept].
  apply Hkept. intros v. discriminate.
Defined.

Ltac case_if :=
  match goal with
  | |- context [if ?c then _ else _] => destruct c eqn:?
  end.

Lemma append_path_nested (TARGET_WINDOWS : bool) (ret a b : string) :
  append_path TARGET_WINDOWS (append_path TARGET_WINDOWS ret a) b
  = append_path TARGET_WINDOWS ret (append_path TARGET_WINDOWS a b).
Proof.
  destruct a as [|ca a], b as [|cb b]; try reflexivity.
  - change (append_path TARGET_WINDOWS ret "") with ret.
    unfold append_path at 3. case_if.
    + change (("" +:+ path_separator TARGET_WINDOWS) +:+ String cb b)
        with (path_separator TARGET_WINDOWS +:+ String cb b).
      unfold append_path. rewrite Heqb0.
      destruct TARGET_WINDOWS; simpl; by rewrite string_append_assoc.
    + reflexivity.
  - unfold append_path.
    repeat case_if; simpl; rewrite ?string_append_assoc; simpl;
      try reflexivity; try congruence.
    all: repeat match goal with
                | H : ?c = _ |- context [if ?c then _ else _] => rewrite H
                end;
      by rewrite ?string_append_assoc.
Qed.

(** X11.  The rule by which the path accessors join [append] to the host's
    path is associative: asking an accessor for two sub-paths joined by
    that rule gives what joining the second sub-path, by that rule, to
    the accessor's result for the first gives. *)
Theorem path_accessors_nested (TARGET_WINDOWS : bool) (toKodi : AddonToKodiFuncTable_Addon)
    (a b : string) :
  GetAddonPath TARGET_WINDOWS toKodi (append_path TARGET_WINDOWS a b)
  = (λ path, append_path TARGET_WINDOWS path b) <$> GetAddonPath TARGET_WINDOWS toKodi a ∧
  GetBaseUserPath TARGET_WINDOWS toKodi (append_path TARGET_WINDOWS a b)
  = (λ path, append_path TARGET_WINDOWS path b) <$> GetBaseUserPath TARGET_WINDOWS toKodi a.
Proof.
  unfold GetAddonPath, GetBaseUserPath.
  destruct (get_addon_path toKodi), (get_base_user_path toKodi); simpl;
    by rewrite ?append_path_nested.
Qed.

(** ** More on [CStructHdl] *)

Section struct_hdl_more.
Context {C_STRUCT : Type} {alloc : Allocator (C_STRUCT := C_STRUCT)}.
Context (C_STRUCT_init : C_STRUCT).

Lemma struct_at_Some (heap : gmap N C_STRUCT) (p : N) (v : C_STRUCT) :
  struct_at heap p = Some v ↔ p ≠ nullptr ∧ heap !! p = Some v.
Proof.
  unfold struct_at. case_bool_decide; split; try done; by intros [].
Qed.

(** A defined assignment took one of the two branches. *)
Lemma CStructHdl_assign_Some (this right this' : CStructHdl) (heap heap' : gmap N C_STRUCT) :
  CStructHdl_assign this right heap = Some (this', heap') →
  (m_owner this = false ∧ this' = this ∧
   ∃ dst src, struct_at heap (m_cStructure this) = Some dst ∧
              struct_at heap (m_cStructure right) = Some src ∧
              heap' = <[m_cStructure this := src]> heap) ∨
  (∃ heap1 src,
     (if m_owner this then delete_C_STRUCT (m_cStructure this) heap else Some heap)
     = Some heap1 ∧
     (m_owner this = false → m_cStructure this = nullptr) ∧
     struct_at heap1 (m_cStructure right) = Some src ∧
     this' = {| m_cStructure := allocate heap1; m_owner := true |} ∧
     heap' = <[allocate heap1 := src]> heap1).
Proof.
  unfold CStructHdl_assign.
  destruct (bool_decide (m_cStructure this ≠ nullptr)) eqn:Hnonnull;
    destruct (m_owner this) eqn:Howner; simpl.
  - destruct (delete_C_STRUCT _ heap) as [heap1|] eqn:Hdel; [ | discriminate ]. simpl.
    destruct (struct_at heap1 _) as [src|] eqn:Hsrc; [ | discriminate ]. simpl.
    intros [= <- <-]. right. exists heap1, src. by repeat split.
  - destruct (struct_at heap (m_cStructure this)) as [dst|] eqn:Hdst; [ | discriminate ].
    simpl. destruct (struct_at heap (m_cStructure right)) as [src|] eqn:Hsrc;
      [ | discriminate ].
    intros [= <- <-]. left. repeat split. by exists dst, src.
  - destruct (delete_C_STRUCT _ heap) as [heap1|] eqn:Hdel; [ | discriminate ]. simpl.
    destruct (struct_at heap1 _) as [src|] eqn:Hsrc; [ | discriminate ]. simpl.
    intros [= <- <-]. right. exists heap1, src. by repeat split.
  - destruct (struct_at heap (m_cStructure right)) as [src|] eqn:Hsrc; [ | discriminate ].
    simpl. intros [= <- <-]. right. exists heap, src. repeat split; try done.
    intros _. apply bool_decide_eq_false in Hnonnull.
    by destruct (decide (m_cStructure this = nullptr)).
Qed.

Lemma delete_C_STRUCT_Some (p : N) (heap heap1 : gmap N C_STRUCT) :
  delete_C_STRUCT p heap = Some heap1 →
  (p = nullptr ∧ heap1 = heap) ∨ (p ≠ nullptr ∧ is_Some (heap !! p) ∧ heap1 = delete p heap).
Proof.
  unfold delete_C_STRUCT. case_bool_decide as Hp.
  - intros [= <-]. by left.
  - destruct (heap !! p) eqn:Hlive; [ | discriminate ].
    intros [= <-]. right. by repeat split.
Qed.

(** What the record at [q] was before the branch that deletes. *)
Lemma struct_at_after_delete (this : CStructHdl) (heap heap1 : gmap N C_STRUCT) q v :
  (if m_owner this then delete_C_STRUCT (m_cStructure this) heap else Some heap)
  = Some heap1 →
  struct_at heap1 q = Some v → struct_at heap q = Some v.
Proof.
  destruct (m_owner this); [ | by intros [= <-] ].
  intros [[_ ->] | (_ & _ & ->)]%delete_C_STRUCT_Some; [ done | ].
  rewrite !struct_at_Some. intros [Hq Hv]. split; [ done | ].
  by apply lookup_delete_Some in Hv as [_ Hv].
Qed.

(** X12.  After an assignment with defined behaviour the destination reads
    the record that the source held before, and the source still reads
    it. *)
Theorem CStructHdl_assign_copies (this right this' : CStructHdl) (heap heap' : gmap N C_STRUCT) :
  CStructHdl_assign this right heap = Some (this', heap') →
  ∃ src, struct_at heap (m_cStructure right) = Some src ∧
         struct_at heap' (m_cStructure this') = Some src ∧
         struct_at heap' (m_cStructure right) = Some src.
Proof.
  intros [(Howner & -> & dst & src & Hdst & Hsrc & ->)
         | (heap1 & src & Hdel & _ & Hsrc & -> & ->)]%CStructHdl_assign_Some.
  - exists src. apply struct_at_Some in Hdst as [Hthis _].
    pose proof Hsrc as [Hright Hsrc']%struct_at_Some.
    rewrite !struct_at_Some. repeat split; try done.
    + by rewrite lookup_insert_eq.
    + destruct (decide (m_cStructure this = m_cStructure right)) as [-> | Hne].
      * by rewrite lookup_insert_eq.
      * by rewrite lookup_insert_ne.
  - exists src. split; [ by eapply struct_at_after_delete | ].
    pose proof Hsrc as [Hright Hsrc']%struct_at_Some.
    rewrite !struct_at_Some. simpl. repeat split; try done.
    + apply allocate_nonnull.
    + by rewrite lookup_insert_eq.
    + rewrite lookup_insert_ne; [ done | ].
      intros Heq. pose proof (allocate_fresh heap1) as Hfresh.
      rewrite Heq in Hfresh. congruence.
Qed.

(** X13.  After an assignment with defined behaviour the wrapper holds a
    pointer that is not null, and is owning exactly if it was owning
    before or held a null pointer: an aliasing wrapper stays aliasing, an
    owning one stays owning. *)
Theorem CStructHdl_assign_keeps_mode (this right this' : CStructHdl) (heap heap' : gmap N C_STRUCT) :
  CStructHdl_assign this right heap = Some (this', heap') →
  m_cStructure this' ≠ nullptr ∧
  m_owner this' = m_owner this || bool_decide (m_cStructure this = nullptr).
Proof.
  intros [(Howner & -> & dst & src & Hdst & Hsrc & ->)
         | (heap1 & src & Hdel & Hnull & Hsrc & -> & ->)]%CStructHdl_assign_Some.
  - apply struct_at_Some in Hdst as [Hthis _]. split; [ done | ].
    by rewrite Howner, bool_decide_eq_false_2.
  - simpl. split; [ apply allocate_nonnull | ].
    destruct (m_owner this); [ done | ]. by rewrite bool_decide_eq_true_2; auto.
Qed.

(** X14.  An assignment touches two addresses at most, the one the
    wrapper held and the one it holds afterwards; every other record is
    as it was.  Through an aliasing wrapper nothing is allocated and
    nothing is freed. *)
Theorem CStructHdl_assign_frame (this right this' : CStructHdl) (heap heap' : gmap N C_STRUCT) :
  CStructHdl_assign this right heap = Some (this', heap') →
  (∀ q, q ≠ m_cStructure this → q ≠ m_cStructure this' → heap' !! q = heap !! q) ∧
  (m_owner this = false → m_cStructure this ≠ nullptr → dom heap' = dom heap).
Proof.
  intros [(Howner & -> & dst & src & Hdst & Hsrc & ->)
         | (heap1 & src & Hdel & Hnull & Hsrc & -> & ->)]%CStructHdl_assign_Some.
  - split.
    + intros q Hq _. by rewrite lookup_insert_ne.
    + intros _ _. apply struct_at_Some in Hdst as [_ Hdst].
      rewrite dom_insert_L. apply elem_of_dom_2 in Hdst.
      apply set_eq. intros q. rewrite elem_of_union, elem_of_singleton.
      split; [ intros [-> | Hq]; assumption | by right ].
  - split.
    + simpl. intros q Hq Hq'. rewrite lookup_insert_ne by done.
      destruct (m_owner this); [ | by injection Hdel as <- ].
      apply delete_C_STRUCT_Some in Hdel as [[_ ->] | (_ & _ & ->)]; [ done | ].
      by rewrite lookup_delete_ne.
    + intros Howner Hnonnull. by destruct (Hnonnull (Hnull Howner)).
Qed.

End struct_hdl_more.

Section struct_hdl_lifetime.
Context {C_STRUCT : Type} {alloc : Allocator (C_STRUCT := C_STRUCT)}.
Context (C_STRUCT_init : C_STRUCT).

(** X15.  A wrapper made by the copy constructor has a record of its own:
    the original's record is where it was, holding what it held, and no
    assignment to the copy changes it. *)
Theorem CStructHdl_copy_independent (cppClass copy : CStructHdl) (heap heap1 : gmap N C_STRUCT) :
  CStructHdl_copy cppClass heap = Some (copy, heap1) →
  m_cStructure copy ≠ m_cStructure cppClass ∧
  struct_at heap1 (m_cStructure cppClass) = struct_at heap (m_cStructure cppClass) ∧
  (∀ right copy' heap2,
     CStructHdl_assign copy right heap1 = Some (copy', heap2) →
     struct_at heap2 (m_cStructure cppClass) = struct_at heap (m_cStructure cppClass)).
Proof.
  unfold CStructHdl_copy.
  destruct (struct_at heap (m_cStructure cppClass)) as [v|] eqn:Hv; [ | discriminate ].
  simpl. intros [= <- <-]. simpl.
  apply struct_at_Some in Hv as [Hnonnull Hv].
  assert (Hfresh : allocate heap ≠ m_cStructure cppClass).
  { intros Heq. pose proof (allocate_fresh heap) as Hnone. rewrite Heq in Hnone.
    congruence. }
  assert (Hkept : struct_at (<[allocate heap := v]> heap) (m_cStructure cppClass) = Some v).
  { apply struct_at_Some. split; [ done | ]. by rewrite lookup_insert_ne. }
  split; [ done | split; [ done | ] ].
  intros right copy' heap2
    [(Howner & _) | (heap' & src & Hdel & _ & Hsrc & -> & ->)]%CStructHdl_assign_Some;
    [ discriminate | ].
  simpl in Hdel. apply delete_C_STRUCT_Some in Hdel as [[Hnull _] | (_ & _ & ->)].
  { by destruct (allocate_nonnull heap). }
  rewrite delete_insert_eq. rewrite delete_id by apply allocate_fresh.
  apply struct_at_Some. split; [ done | ].
  rewrite lookup_insert_ne; [ done | ].
  intros Heq. pose proof (allocate_fresh heap) as Hnone. rewrite Heq in Hnone. congruence.
Qed.

(** X16.  The destructor frees what the wrapper owns and nothing else.
    Destroying a freshly default-constructed or copy-constructed wrapper
    gives back the heap as it was before the construction; destroying an
    aliasing wrapper leaves the heap as it is; and an owning wrapper whose
    record is assigned anew leaves behind, once destroyed, the heap
    without its first record.  Destroying an owning wrapper a second time
    is undefined. *)
Theorem CStructHdl_destroy_frees_owned (heap : gmap N C_STRUCT) :
  CStructHdl_destroy (CStructHdl_default C_STRUCT_init heap).1
    (CStructHdl_default C_STRUCT_init heap).2 = Some heap ∧
  (∀ cppClass copy heap1, CStructHdl_copy cppClass heap = Some (copy, heap1) →
     CStructHdl_destroy copy heap1 = Some heap) ∧
  (∀ cStructure this, CStructHdl_ptr cStructure = Some this →
     CStructHdl_destroy this heap = Some heap) ∧
  (∀ this right this' heap', m_owner this = true → m_cStructure this ≠ nullptr →
     CStructHdl_assign this right heap = Some (this', heap') →
     CStructHdl_destroy this' heap' = Some (delete (m_cStructure this) heap)) ∧
  (∀ this heap1, m_owner this = true → m_cStructure this ≠ nullptr →
     CStructHdl_destroy this heap = Some heap1 →
     CStructHdl_destroy this heap1 = None).
Proof.
  assert (Hnew : ∀ (v : C_STRUCT) (h : gmap N C_STRUCT),
            delete_C_STRUCT (allocate h) (<[allocate h := v]> h) = Some h).
  { intros v h. unfold delete_C_STRUCT.
    rewrite bool_decide_eq_false_2 by apply allocate_nonnull.
    rewrite lookup_insert_eq, delete_insert_eq.
    by rewrite delete_id by apply allocate_fresh. }
  repeat apply conj.
  - apply Hnew.
  - intros cppClass copy heap1. unfold CStructHdl_copy.
    destruct (struct_at heap (m_cStructure cppClass)) as [v|]; [ | discriminate ].
    intros [= <- <-]. apply Hnew.
  - intros cStructure this. unfold CStructHdl_ptr.
    case_bool_decide; [ | discriminate ]. by intros [= <-].
  - intros this right this' heap' Howner Hnonnull
      [(Halias & _) | (heap1 & src & Hdel & _ & _ & -> & ->)]%CStructHdl_assign_Some;
      [ congruence | ].
    rewrite Howner in Hdel.
    apply delete_C_STRUCT_Some in Hdel as [[Hnull _] | (_ & _ & ->)]; [ done | ].
    apply Hnew.
  - intros this heap1 Howner Hnonnull. unfold CStructHdl_destroy. rewrite Howner.
    intros [[Hnull _] | (_ & _ & ->)]%delete_C_STRUCT_Some; [ done | ].
    unfold delete_C_STRUCT. rewrite bool_decide_eq_false_2 by assumption.
    by rewrite lookup_delete_eq.
Qed.

(** X17.  Assigning a wrapper to itself: through an aliasing wrapper it
    changes nothing; for an owning wrapper it is undefined, the record
    being deleted before it is copied. *)
Theorem CStructHdl_assign_self (this : CStructHdl) (heap : gmap N C_STRUCT) (v : C_STRUCT) :
  struct_at heap (m_cStructure this) = Some v →
  CStructHdl_assign this this heap
  = if m_owner this then None else Some (this, heap).
Proof.
  intros Hlive. destruct (m_owner this) eqn:Howner.
  - by apply (CStructHdl_assign_self_owner this heap v).
  - unfold CStructHdl_assign. rewrite Howner, Hlive. simpl.
    apply struct_at_Some in Hlive as [Hnonnull Hlive].
    rewrite bool_decide_eq_true_2 by assumption. simpl.
    by rewrite insert_id.
Qed.

End struct_hdl_lifetime.

Lemma CStructHdl_assign_copies_witness :
  ∃ src : Z,
    struct_at ({[ 64%N := 1; 80%N := 2 ]} : gmap N Z) 80%N = Some src ∧
    struct_at ({[ 80%N := 2; 81%N := 2 ]} : gmap N Z) 81%N = Some src ∧
    struct_at ({[ 80%N := 2; 81%N := 2 ]} : gmap N Z) 80%N = Some src.
Proof.
  apply (CStructHdl_assign_copies (alloc := fresh_allocator)
           {| m_cStructure := 64; m_owner := true |}
           {| m_cStructure := 80; m_owner := true |}
           {| m_cStructure := 81; m_owner := true |}
           {[ 64%N := 1; 80%N := 2 ]}).
  vm_compute. reflexivity.
Defined.

Lemma CStructHdl_assign_keeps_mode_witness :
  (81%N ≠ nullptr) ∧ true = true || bool_decide (64%N = nullptr).
Proof.
  apply (CStructHdl_assign_keeps_mode (alloc := fresh_allocator)
           {| m_cStructure := 64; m_owner := true |}
           {| m_cStructure := 80; m_owner := true |}
           {| m_cStructure := 81; m_owner := true |}
           ({[ 64%N := 1; 80%N := 2 ]} : gmap N Z) {[ 80%N := 2; 81%N := 2 ]}).
  vm_compute. reflexivity.
Defined.

Lemma CStructHdl_assign_frame_witness :
  ({[ 64%N := 2; 80%N := 2 ]} : gmap N Z) !! 80%N
  = ({[ 64%N := 1; 80%N := 2 ]} : gmap N Z) !! 80%N.
Proof.
  destruct (CStructHdl_assign_frame (alloc := fresh_allocator)
              {| m_cStructure := 64; m_owner := false |}
              {| m_cStructure := 80; m_owner := true |}
              {| m_cStructure := 64; m_owner := false |}
              ({[ 64%N := 1; 80%N := 2 ]} : gmap N Z) {[ 64%N := 2; 80%N := 2 ]})
    as [Hframe _]; [ vm_compute; reflexivity | ].
  apply Hframe; discriminate.
Defined.

Lemma CStructHdl_copy_independent_witness :
  struct_at ({[ 64%N := 1; 65%N := 1 ]} : gmap N Z) 64%N
  = struct_at ({[ 64%N := 1 ]} : gmap N Z) 64%N.
Proof.
  destruct (CStructHdl_copy_independent (alloc := fresh_allocator)
              {| m_cStructure := 64; m_owner := true |}
              {| m_cStructure := 65; m_owner := true |}
              ({[ 64%N := 1 ]} : gmap N Z) {[ 64%N := 1; 65%N := 1 ]})
    as (_ & Hkept & _); [ vm_compute; reflexivity | ].
  exact Hkept.
Defined.

Lemma CStructHdl_destroy_frees_owned_witness :
  CStructHdl_destroy {| m_cStructure := 65; m_owner := true |}
    ({[ 64%N := 1; 65%N := 1 ]} : gmap N Z) = Some {[ 64%N := 1 ]}.
Proof.
  destruct (CStructHdl_destroy_frees_owned (alloc := fresh_allocator) 0
              ({[ 64%N := 1 ]} : gmap N Z)) as (_ & Hcopy & _).
  apply (Hcopy {| m_cStructure := 64; m_owner := true |}).
  vm_compute. reflexivity.
Defined.

Lemma CStructHdl_assign_self_witness :
  CStructHdl_assign (alloc := fresh_allocator) {| m_cStructure := 64; m_owner := true |}
    {| m_cStructure := 64; m_owner := true |} ({[ 64%N := 1 ]} : gmap N Z) = None.
Proof.
  apply (CStructHdl_assign_self (alloc := fresh_allocator)
           {| m_cStructure := 64; m_owner := true |} {[ 64%N := 1 ]} 1).
  reflexivity.
Defined.
